(** * Automation-XML: image <-> base64 <-> XML round trip (src/main.py)

    A shallow embedding of [src/main.py] and the verification of its
    specification.  Python values are modelled as follows:

    - [str] is [string]; every [ascii] stands for one character, and a
      character whose code is above 127 stands for a non-ASCII one;
    - [bytes] is [list byte];
    - a [dict] used as a record of optional keys is a record of [field]s
      (key absent / key bound to [None] / key bound to a value);
    - the file system is a finite map from paths to file contents;
    - [print] appends a structured message to the output of the run;
    - an exception is the left injection of the result of a computation. *)

From Stdlib Require Import NArith Strings.Byte Ascii String List Bool Lia.
From stdpp Require Import gmap strings list pretty.

Set Warnings "-register-all,-clear-no-such-hyp".

Open Scope string_scope.
Open Scope list_scope.

(** ** Exceptions and printed messages *)

Inductive exn : Type :=
  | TypeError            (* len(None), iteration over None *)
  | AttributeError       (* None.items() *)
  | ValueError           (* non-ASCII text in b64decode; a name as "{abc" *)
  | BinasciiError        (* base64.binascii.Error *)
  | FileNotFoundError
  | PermissionError
  | IsADirectoryError
  | FileExistsError
  | ParseError.          (* xml.etree.ElementTree.ParseError *)

Definition result (A : Type) : Type := exn + A.

(** ** The base64 codec of the standard library *)

Module Base64.

Definition alphabet : string :=
  "ABCDEFGHIJKLMNOPQRSTUVWXYZabcdefghijklmnopqrstuvwxyz0123456789+/".

Definition BASE64_PAD : ascii := "="%char.

(** [table_b2a_base64[n]] *)
Definition table_b2a_base64 (n : N) : ascii :=
  match String.get (N.to_nat n) alphabet with
  | Some c => c
  | None => BASE64_PAD
  end.

Fixpoint index_of (c : ascii) (s : string) (i : N) : option N :=
  match s with
  | EmptyString => None
  | String d s' => if Ascii.eqb c d then Some i else index_of c s' (N.succ i)
  end.

(** [table_a2b_base64[c]]; [None] stands for the entries that are not
    below 64. *)
Definition table_a2b_base64 (c : ascii) : option N := index_of c alphabet 0.

Definition byte_of_N (n : N) : byte :=
  match Byte.of_N (N.land n 255) with
  | Some b => b
  | None => x00
  end.

(** The four 6-bit groups of a 24-bit input group. *)
Definition sextet0 (n0 : N) : N := N.shiftr n0 2.
Definition sextet1 (n0 n1 : N) : N :=
  N.lor (N.shiftl (N.land n0 3) 4) (N.shiftr n1 4).
Definition sextet2 (n1 n2 : N) : N :=
  N.lor (N.shiftl (N.land n1 15) 2) (N.shiftr n2 6).
Definition sextet3 (n2 : N) : N := N.land n2 63.

(** Modelled from the spec: [base64.b64encode] belongs to the Python
    standard library, not to src/.  It is the "fixed base64 alphabet with
    padding" encoder of section 4.1 (RFC 4648): three bytes give four
    characters, a final group of one or two bytes is completed with zero
    bits and padded with [=].  The result is ASCII, so the
    [.decode('utf-8')] of line 21 yields the same characters. *)
Fixpoint b64encode (bin_data : list byte) : string :=
  match bin_data with
  | [] => ""
  | [b0] =>
      let n0 := Byte.to_N b0 in
      String (table_b2a_base64 (sextet0 n0))
        (String (table_b2a_base64 (sextet1 n0 0))
           (String BASE64_PAD (String BASE64_PAD "")))
  | [b0; b1] =>
      let n0 := Byte.to_N b0 in
      let n1 := Byte.to_N b1 in
      String (table_b2a_base64 (sextet0 n0))
        (String (table_b2a_base64 (sextet1 n0 n1))
           (String (table_b2a_base64 (sextet2 n1 0))
              (String BASE64_PAD "")))
  | b0 :: b1 :: b2 :: rest =>
      let n0 := Byte.to_N b0 in
      let n1 := Byte.to_N b1 in
      let n2 := Byte.to_N b2 in
      String (table_b2a_base64 (sextet0 n0))
        (String (table_b2a_base64 (sextet1 n0 n1))
           (String (table_b2a_base64 (sextet2 n1 n2))
              (String (table_b2a_base64 (sextet3 n2))
                 (b64encode rest))))
  end.

(** Modelled from the spec: [binascii.a2b_base64] in its default
    (non-strict) mode, the decoder behind [base64.b64decode]; it belongs
    to the Python standard library, not to src/.  The loop keeps the
    position in the current quad, the bits left over from the previous
    character and the number of pad characters seen; characters outside
    the alphabet are skipped, a complete pad sequence ends the input, and
    an incomplete last quad is the "malformed payload" error. *)
Fixpoint a2b_base64 (ascii_data : string)
    (quad_pos : nat) (leftchar : N) (pads : nat) (bin_data : list byte)
    : result (list byte) :=
  match ascii_data with
  | EmptyString =>
      match quad_pos with
      | O => inr bin_data
      | _ => inl BinasciiError
      end
  | String this_ch ascii_data' =>
      if Ascii.eqb this_ch BASE64_PAD then
        if Nat.leb 2 quad_pos then
          if Nat.leb 4 (quad_pos + S pads) then inr bin_data
          else a2b_base64 ascii_data' quad_pos leftchar (S pads) bin_data
        else a2b_base64 ascii_data' quad_pos leftchar pads bin_data
      else
        match table_a2b_base64 this_ch with
        | None => a2b_base64 ascii_data' quad_pos leftchar pads bin_data
        | Some v =>
            match quad_pos with
            | 0 => a2b_base64 ascii_data' 1 v 0 bin_data
            | 1 =>
                a2b_base64 ascii_data' 2 (N.land v 15) 0
                  (bin_data ++
                     [byte_of_N (N.lor (N.shiftl leftchar 2) (N.shiftr v 4))])
            | 2 =>
                a2b_base64 ascii_data' 3 (N.land v 3) 0
                  (bin_data ++
                     [byte_of_N (N.lor (N.shiftl leftchar 4) (N.shiftr v 2))])
            | _ =>
                a2b_base64 ascii_data' 0 0 0
                  (bin_data ++ [byte_of_N (N.lor (N.shiftl leftchar 6) v)])
            end
        end
  end.

Definition is_ascii (c : ascii) : bool := N.ltb (N_of_ascii c) 128.

Fixpoint all_ascii (s : string) : bool :=
  match s with
  | EmptyString => true
  | String c s' => is_ascii c && all_ascii s'
  end.

(** Modelled from the spec: [base64.b64decode(s)] on a [str] argument,
    from the Python standard library: the text is first encoded as ASCII
    ([ValueError] when that is impossible) and then handed to
    [a2b_base64]. *)
Definition b64decode (s : string) : result (list byte) :=
  if all_ascii s then a2b_base64 s 0 0 0 [] else inl ValueError.

End Base64.

(** Boolean checks on the tables and on the bit arithmetic of the codec,
    decided by running them on every byte. *)
Module Base64Check.
Import Base64.

Definition upto (k : nat) : list N := map N.of_nat (seq 0 k).

(** Exhaustive checks over bytes, run once by the kernel. *)
Definition check1 (k : nat) (P : N → bool) : bool := forallb P (upto k).

Definition check2 (P : N → N → bool) : bool :=
  forallb (λ a, forallb (P a) (upto 256)) (upto 256).

Definition char_ok (n : N) : bool :=
  match table_a2b_base64 (table_b2a_base64 n) with
  | Some m => N.eqb m n
  | None => false
  end
  && negb (Ascii.eqb (table_b2a_base64 n) BASE64_PAD)
  && is_ascii (table_b2a_base64 n).

(** What the decoder needs to know about two neighbouring bytes. *)
Definition pair_ok (a b : N) : bool :=
  N.ltb (sextet0 a) 64 && N.ltb (sextet1 a b) 64
  && N.ltb (sextet2 a b) 64 && N.ltb (sextet3 a) 64
  && N.eqb (N.lor (N.shiftl (sextet0 a) 2) (N.shiftr (sextet1 a b) 4)) a
  && N.eqb (N.land (sextet1 a b) 15) (N.shiftr b 4)
  && N.eqb (N.lor (N.shiftl (N.shiftr a 4) 4) (N.shiftr (sextet2 a b) 2)) a
  && N.eqb (N.land (sextet2 a b) 3) (N.shiftr b 6)
  && N.eqb (N.lor (N.shiftl (N.shiftr a 6) 6) (sextet3 a)) a
  && N.eqb (N.land a 255) a.

End Base64Check.

(** ** Python values, file system, output *)

(** What a function of the program returns. *)
Inductive pyval : Type :=
  | PyNone
  | PyBool (b : bool)
  | PyStr (s : string).

(** A key of a [dict]: absent, bound to [None], or bound to a value. *)
Inductive field (A : Type) : Type :=
  | Absent
  | IsNone
  | Val (a : A).
Arguments Absent {A}.
Arguments IsNone {A}.
Arguments Val {A} a.

(** [d.get(key)]: [None] when the key is absent. *)
Definition get {A} (f : field A) : option A :=
  match f with
  | Val a => Some a
  | Absent | IsNone => None
  end.

(** [d.get(key, default)]: the default replaces an absent key only. *)
Definition get_default {A} (f : field A) (default : A) : option A :=
  match f with
  | Val a => Some a
  | Absent => Some default
  | IsNone => None
  end.

(** An [xml.etree.ElementTree.Element] (the tail text is never used). *)
Inductive Element : Type :=
  mkElement (tag : string) (attrib : gmap string string)
            (text : option string) (children : list Element).

Definition tag (e : Element) : string := let 'mkElement t _ _ _ := e in t.
Definition attrib (e : Element) : gmap string string :=
  let 'mkElement _ a _ _ := e in a.
Definition text (e : Element) : option string :=
  let 'mkElement _ _ x _ := e in x.
Definition children (e : Element) : list Element :=
  let 'mkElement _ _ _ c := e in c.

(** The element description documented in [create_xml_file]. *)
Inductive ElementSpec : Type :=
  mkSpec (s_tag : field string)
         (s_attributes : field (gmap string string))
         (s_text : field string)
         (s_children : field (list ElementSpec)).

Definition s_tag (d : ElementSpec) := let 'mkSpec t _ _ _ := d in t.
Definition s_attributes (d : ElementSpec) := let 'mkSpec _ a _ _ := d in a.
Definition s_text (d : ElementSpec) := let 'mkSpec _ _ x _ := d in x.
Definition s_children (d : ElementSpec) := let 'mkSpec _ _ _ c := d in c.

(** One constructor per [print] statement of the program. *)
Inductive Msg : Type :=
  | MsgImageNotFound (image_path : string)               (* line 28 *)
  | MsgEncodeError (e : exn)                             (* line 33 *)
  | MsgTagMissing                                        (* line 74 *)
  | MsgXmlCreated (filename : string)                    (* line 103 *)
  | MsgXmlError (e : exn)                                (* line 106 *)
  | MsgRoot (tag : string)                               (* line 116 *)
  | MsgLevel1 (tag : string) (attrib : gmap string string)  (* line 119 *)
  | MsgLevel2 (tag : string) (attrib : gmap string string)  (* line 121 *)
  | MsgDownloading (image_index : nat)                   (* line 123 *)
  | MsgException (e : exn)                               (* line 128 *)
  | MsgImageSaved (output_file_path : string)            (* line 145 *)
  | MsgDecodeError (e : exn)                             (* line 148 *)
  | MsgSaveError (e : exn).                              (* line 150 *)

(** The file system: regular files, directories, and the paths on which
    the operating system refuses an operation (no permission, read-only or
    full device, invalid destination). *)
Record FS : Type := mkFS {
  files : gmap string (list byte);
  dirs : gset string;
  denied : gset string
}.

(** ** Computations: state, output and exceptions *)

Definition IO (A : Type) : Type := FS → result A * FS * list Msg.

Global Instance IO_ret : MRet IO := λ A x fs, (inr x, fs, []).

Global Instance IO_bind : MBind IO := λ A B f m fs,
  match m fs with
  | (inr x, fs', out) =>
      let '(r, fs'', out') := f x fs' in (r, fs'', out ++ out')
  | (inl e, fs', out) => (inl e, fs', out)
  end.

Definition raise {A} (e : exn) : IO A := λ fs, (inl e, fs, []).

(** [try: body except Exception as e: handler e] *)
Definition try_except {A} (body : IO A) (handler : exn → IO A) : IO A :=
  λ fs,
    match body fs with
    | (inl e, fs', out) =>
        let '(r, fs'', out') := handler e fs' in (r, fs'', out ++ out')
    | (inr x, fs', out) => (inr x, fs', out)
    end.

Definition print (m : Msg) : IO unit := λ fs, (inr (), fs, [m]).

Definition lift {A} (r : result A) : IO A := λ fs, (r, fs, []).

(** [for x in xs: body], threading the local variables the body assigns. *)
Fixpoint for_each {A S} (xs : list A) (body : A → S → IO S) (s : S) : IO S :=
  match xs with
  | [] => mret s
  | x :: xs' => s' ← body x s; for_each xs' body s'
  end.

(** Projections of a finished run. *)
Definition value_of {A} (r : result A * FS * list Msg) : result A := r.1.1.
Definition fs_of {A} (r : result A * FS * list Msg) : FS := r.1.2.
Definition output_of {A} (r : result A * FS * list Msg) : list Msg := r.2.

(** ** Operating-system calls *)

(** [open(path, 'rb').read()] *)
Definition read_file (path : string) : IO (list byte) := λ fs,
  if decide (path ∈ denied fs) then (inl PermissionError, fs, [])
  else if decide (path ∈ dirs fs) then (inl IsADirectoryError, fs, [])
  else match files fs !! path with
       | Some data => (inr data, fs, [])
       | None => (inl FileNotFoundError, fs, [])
       end.

(** [open(path, 'wb').write(data)] *)
Definition write_file (path : string) (data : list byte) : IO unit := λ fs,
  if decide (path ∈ denied fs) then (inl PermissionError, fs, [])
  else if decide (path ∈ dirs fs) then (inl IsADirectoryError, fs, [])
  else (inr (), mkFS (<[path := data]> (files fs)) (dirs fs) (denied fs), []).

(** [file.write(data)] on the file opened for writing at [path] *)
Definition append_file (path : string) (data : list byte) : IO unit := λ fs,
  (inr (),
   mkFS (<[path := default [] (files fs !! path) ++ data]> (files fs))
        (dirs fs) (denied fs),
   []).

(** [os.makedirs(path, exist_ok=True)] *)
Definition os_makedirs (path : string) : IO unit := λ fs,
  if decide (path ∈ denied fs) then (inl PermissionError, fs, [])
  else match files fs !! path with
       | Some _ => (inl FileExistsError, fs, [])
       | None => (inr (), mkFS (files fs) ({[path]} ∪ dirs fs) (denied fs), [])
       end.

Fixpoint endswith_sep (s : string) : bool :=
  match s with
  | EmptyString => false
  | String c EmptyString => Ascii.eqb c "/"
  | String _ s' => endswith_sep s'
  end.

(** [os.path.join(a, b)] (POSIX) *)
Definition os_path_join (a b : string) : string :=
  if String.prefix "/" b then b
  else if String.eqb a "" || endswith_sep a then a +:+ b
  else a +:+ "/" +:+ b.

(** ** What [ElementTree.write] does before it serializes *)

Fixpoint has_char (c : ascii) (s : string) : bool :=
  match s with
  | EmptyString => false
  | String d s' => Ascii.eqb c d || has_char c s'
  end.

(** [add_qname(qname)] of the standard library raises [ValueError] on a
    name that opens a namespace with "{" and never closes it
    ([uri, tag = qname[1:].rsplit("}", 1)]); every other string passes. *)
Definition qname_ok (qname : string) : bool :=
  match qname with
  | String c rest => if Ascii.eqb c "{" then has_char "}" rest else true
  | EmptyString => true
  end.

(** [_namespaces(root)] passes: the tag and the attribute keys of every
    element of the tree are accepted by [add_qname]. *)
Fixpoint qnames_ok (e : Element) : bool :=
  let 'mkElement t a _ cs := e in
  qname_ok t && forallb qname_ok (map_to_list a).*1 && forallb qnames_ok cs.

(** The line written for [xml_declaration=True] with [encoding='utf-8']. *)
Definition xml_declaration : list byte :=
  list_byte_of_string
    ("<?xml version='1.0' encoding='utf-8'?>" +:+ String "010"%char "").

(** ** The program *)

Section Program.

(** The text [_serialize_xml] writes for a tree whose names [_namespaces]
    has accepted, and the parser [ET.parse] of the standard library, are
    parameters of the development; the parser answers [None] on markup that
    is not well formed. *)
Variable ET_tostring : Element → list byte.
Variable ET_fromstring : list byte → option Element.

(** [encode_image_to_base64], lines 6-34. *)
Definition encode_image_to_base64 (image_path : string) : IO pyval :=
  try_except
    (image_file ← read_file image_path;
     let encoded_string := Base64.b64encode image_file in
     mret (PyStr encoded_string))
    (λ e,
       match e with
       | FileNotFoundError =>
           print (MsgImageNotFound image_path);; mret PyNone
       | _ =>
           print (MsgEncodeError e);; mret PyNone
       end).

(** [ET.SubElement(parent, tag)]: the new element, which the call also
    appends to [parent]; [attach] is that append, done here once the
    element is complete. *)
Definition SubElement (tag : string) : Element := mkElement tag ∅ None [].

Definition attach (parent element : Element) : Element :=
  mkElement (tag parent) (attrib parent) (text parent)
            (children parent ++ [element]).

(** [element.set(attr, value)] *)
Definition set (element : Element) (attr value : string) : Element :=
  mkElement (tag element) (<[attr := value]> (attrib element))
            (text element) (children element).

(** [element.text = text] *)
Definition set_text (element : Element) (t : string) : Element :=
  mkElement (tag element) (attrib element) (Some t) (children element).

(** [_add_element], lines 70-91.  The result is the parent after the
    call together with what the call returns: the created element, or
    [None] when the description was skipped. *)
Fixpoint _add_element (parent : Element) (element_data : ElementSpec)
    {struct element_data} : IO (Element * option Element) :=
  let tag := get (s_tag element_data) in
  match tag with
  | None =>
      print MsgTagMissing;; mret (parent, None)
  | Some tag =>
      if String.eqb tag "" then      (* [not tag] holds for [None] and [""] *)
        print MsgTagMissing;; mret (parent, None)
      else
        let element := SubElement tag in
        attributes ←
          match get_default (s_attributes element_data) ∅ with
          | Some attributes => mret attributes
          | None => raise AttributeError
          end;
        let element :=
          map_fold (λ attr value element, set element attr value)
                   element attributes in
        let text := get (s_text element_data) in
        let element :=
          match text with
          | Some text => set_text element text
          | None => element
          end in
        element ←
          match s_children element_data with   (* [.get('children', [])] *)
          | Absent => mret element
          | IsNone => raise TypeError
          | Val children =>
              (fix add_children (children : list ElementSpec)
                   (element : Element) : IO Element :=
                 match children with
                 | [] => mret element
                 | child_data :: children' =>
                     r ← _add_element element child_data;
                     add_children children' r.1
                 end) children element
          end;
        mret (attach parent element, Some element)
  end.

(** The loop of lines 93-94. *)
Definition add_elements (elements_data : list ElementSpec)
    (root : Element) : IO Element :=
  for_each elements_data
    (λ element_data root, r ← _add_element root element_data; mret r.1)
    root.

(** [tree.write(filename, encoding='utf-8', xml_declaration=True)]: the
    file is opened for writing, which empties it; the declaration is
    written; [_namespaces] checks the names and may raise, the file being
    closed with the declaration alone in it; then the tree is serialized. *)
Definition tree_write (root : Element) (filename : string) : IO unit :=
  write_file filename [];;
  append_file filename xml_declaration;;
  (if qnames_ok root then mret () else raise ValueError);;
  append_file filename (ET_tostring root).

(** What a file written by [tree_write] holds. *)
Definition xml_file (root : Element) : list byte :=
  xml_declaration ++ ET_tostring root.

(** The file system with the whole document in the file, and with the
    declaration alone in it. *)
Definition written (filename : string) (root : Element) (fs : FS) : FS :=
  mkFS (<[filename := xml_file root]> (files fs)) (dirs fs) (denied fs).

Definition truncated (filename : string) (fs : FS) : FS :=
  mkFS (<[filename := xml_declaration]> (files fs)) (dirs fs) (denied fs).

(** [create_xml_file], lines 37-109; [elements_data = None] is the
    default of the parameter.  The [return True] of line 109 is reached
    exactly when the [try] block completes. *)
Definition create_xml_file (filename root_name : string)
    (elements_data : option (list ElementSpec)) : IO pyval :=
  let elements_data :=
    match elements_data with
    | None => [mkSpec (Val "element") Absent Absent Absent]
    | Some elements_data => elements_data
    end in
  try_except
    (let root := mkElement root_name ∅ None [] in
     root ← add_elements elements_data root;
     tree_write root filename;;
     print (MsgXmlCreated filename);;
     mret (PyBool true))
    (λ e, print (MsgXmlError e);; mret (PyBool false)).

(** [save_base64_to_image], lines 131-150.  No path of the function has
    a [return] statement: it returns [None]. *)
Definition save_base64_to_image (base64_string image_filename : string)
    : IO pyval :=
  try_except
    (let output_folder := "extracted_images" in
     os_makedirs output_folder;;
     let output_file_path := os_path_join output_folder image_filename in
     image_data ← lift (Base64.b64decode base64_string);
     write_file output_file_path image_data;;
     print (MsgImageSaved output_file_path);;
     mret PyNone)
    (λ e,
       match e with
       | BinasciiError => print (MsgDecodeError e);; mret PyNone
       | _ => print (MsgSaveError e);; mret PyNone
       end).

(** [f"extracted_image{image_index}.jpg"] *)
Definition image_name (image_index : nat) : string :=
  "extracted_image" +:+ pretty image_index +:+ ".jpg".

(** The body of the inner loop, lines 121-125; [len(None)] raises
    [TypeError]. *)
Definition scan_level_2 (level_2_child : Element) (image_index : nat)
    : IO nat :=
  print (MsgLevel2 (tag level_2_child) (attrib level_2_child));;
  match text level_2_child with
  | None => raise TypeError
  | Some text =>
      if Nat.ltb 100 (String.length text) then
        print (MsgDownloading image_index);;
        save_base64_to_image text (image_name image_index);;
        mret (image_index + 1)
      else mret image_index
  end.

(** The body of the outer loop, lines 119-125. *)
Definition scan_level_1 (level_1_child : Element) (image_index : nat)
    : IO nat :=
  print (MsgLevel1 (tag level_1_child) (attrib level_1_child));;
  for_each (children level_1_child) scan_level_2 image_index.

(** [ET.parse(xml_file_path).getroot()] *)
Definition ET_parse (xml_file_path : string) : IO Element :=
  source ← read_file xml_file_path;
  match ET_fromstring source with
  | Some root => mret root
  | None => raise ParseError
  end.

(** [convert_xml_images], lines 112-128. *)
Definition convert_xml_images (xml_file_path : string) : IO pyval :=
  try_except
    (root ← ET_parse xml_file_path;
     print (MsgRoot (tag root));;
     let image_index := 0 in
     for_each (children root) scan_level_1 image_index;;
     mret PyNone)
    (λ e, print (MsgException e);; mret PyNone).

End Program.

(** ** Notions used to state the properties *)

(** The depth-2 elements of a document, in document order. *)
Definition depth2 (root : Element) : list Element :=
  concat (map children (children root)).

Definition has_text (e : Element) : bool :=
  match text e with
  | Some _ => true
  | None => false
  end.

(** The text of an element when it is longer than 100 characters. *)
Definition payload (e : Element) : option string :=
  match text e with
  | Some t => if Nat.ltb 100 (String.length t) then Some t else None
  | None => None
  end.

Definition payloads (es : list Element) : list string := omap payload es.

(** The elements that come before the first element without text. *)
Fixpoint scanned (es : list Element) : list Element :=
  match es with
  | [] => []
  | e :: es' => if has_text e then e :: scanned es' else []
  end.

(** The indices announced by the "Downloading image [i]..." lines. *)
Definition downloads (out : list Msg) : list nat :=
  omap (λ m, match m with MsgDownloading i => Some i | _ => None end) out.

(** Where [save_base64_to_image] writes the file called [image_filename]. *)
Definition output_path (image_filename : string) : string :=
  os_path_join "extracted_images" image_filename.

(** The file system after storing the payloads [ps] one after the other
    under the indices [i], [i + 1], ... *)
Fixpoint store_all (ps : list string) (i : nat) (fs : FS) : FS :=
  match ps with
  | [] => fs
  | p :: ps' =>
      store_all ps' (S i) (fs_of (save_base64_to_image p (image_name i) fs))
  end.

(** The file system lets [save_base64_to_image] create its folder and
    write the file [path]. *)
Definition storable (fs : FS) (path : string) : Prop :=
  ("extracted_images" ∉ denied fs) ∧ (files fs !! "extracted_images" = None)
  ∧ (path ∉ denied fs) ∧ (path ∉ dirs fs).

(** The file system lets [tree.write] write the file [path]. *)
Definition writable (fs : FS) (path : string) : Prop :=
  (path ∉ denied fs) ∧ (path ∉ dirs fs).

(** The description has no usable tag: the key is absent, or bound to
    [None] or to the empty string. *)
Definition tag_missing (d : ElementSpec) : Prop :=
  match s_tag d with
  | Val t => t = ""
  | Absent | IsNone => True
  end.

(** The element created by lines 77-85, before its children are added. *)
Definition new_element (tag : string) (attributes : gmap string string)
    (text : option string) : Element :=
  let element :=
    map_fold (λ attr value element, set element attr value)
             (SubElement tag) attributes in
  match text with
  | Some text => set_text element text
  | None => element
  end.

(** What the builder leaves untouched in the element it adds to. *)
Definition same_node (e e' : Element) : Prop :=
  tag e' = tag e ∧ attrib e' = attrib e ∧ text e' = text e.

(** ** Sample data *)

Fixpoint repeat_char (c : ascii) (n : nat) : string :=
  match n with
  | O => ""
  | S n' => String c (repeat_char c n')
  end.

(** A file system holding an (unread) XML file, with nothing refused. *)
Definition sample_fs : FS := mkFS {["image.xml" := []]} ∅ ∅.

(** A parser that answers with a fixed document. *)
Definition parses_to (root : Element) : list byte → option Element :=
  λ _, Some root.

Definition leaf (tag : string) (text : option string) : Element :=
  mkElement tag ∅ text [].

(** Well-formed base64 of 104 characters (78 zero bytes). *)
Definition good_payload : string := repeat_char "A" 104.

(** 101 characters of the alphabet: one more than a multiple of four. *)
Definition bad_payload : string := repeat_char "A" 101.

Definition title : Element := leaf "image_title" (Some "scenery.png.").
Definition bad_image : Element := leaf "image_string" (Some bad_payload).
Definition good_image : Element := leaf "image_string" (Some good_payload).
Definition end_tag : Element := leaf "end_tag" None.

(** <root><root> title, malformed payload, payload, <end_tag/> </root></root> *)
Definition sample_document : Element :=
  mkElement "root" ∅ None
    [mkElement "root" ∅ None [title; bad_image; good_image; end_tag]].

(** <root><group> <end_tag/>, payload </group></root> *)
Definition textless_first_document : Element :=
  mkElement "root" ∅ None [mkElement "group" ∅ None [end_tag; good_image]].

(** <root><group> payload </group></root> *)
Definition payload_only_document : Element :=
  mkElement "root" ∅ None [mkElement "group" ∅ None [good_image]].

(** A stand-in for the serializer: the bytes of the tags, depth first. *)
Fixpoint tags_of (e : Element) : list byte :=
  let 'mkElement t _ _ cs := e in
  list_byte_of_string t ++ concat (map tags_of cs).

(** Descriptions used in the examples. *)
Definition tagged (name : string) : ElementSpec :=
  mkSpec (Val name) Absent Absent Absent.

Definition untagged : ElementSpec :=
  mkSpec Absent Absent (Val "lost") (Val [tagged "inner"]).

Definition empty_text : ElementSpec :=
  mkSpec (Val "note") Absent (Val "") Absent.

(** ** The tree the builder is expected to produce *)

(** The element a description stands for: none when its tag is absent,
    [None] or empty; otherwise its tag, its attributes (none when the key is
    absent), its text and the elements of its children, in order. *)
Fixpoint build (d : ElementSpec) : option Element :=
  match get (s_tag d) with
  | None => None
  | Some t =>
      if String.eqb t "" then None
      else
        Some (mkElement t (default ∅ (get (s_attributes d))) (get (s_text d))
                match s_children d with
                | Val ds => omap build ds
                | Absent | IsNone => []
                end)
  end.

(** The description is processed without an exception: below a usable tag,
    neither the [attributes] key nor the [children] key is bound to [None],
    and the same holds for its children. *)
Fixpoint builds (d : ElementSpec) : bool :=
  match get (s_tag d) with
  | None => true
  | Some t =>
      if String.eqb t "" then true
      else
        match s_attributes d, s_children d with
        | IsNone, _ => false
        | _, IsNone => false
        | _, Absent => true
        | _, Val ds => forallb builds ds
        end
  end.

(** The number of "tag is missing" diagnostics a description causes. *)
Fixpoint skipped (d : ElementSpec) : nat :=
  match get (s_tag d) with
  | None => 1
  | Some t =>
      if String.eqb t "" then 1
      else
        match s_children d with
        | Val ds => list_sum (map skipped ds)
        | Absent | IsNone => 0
        end
  end.

(** [e] with the elements [cs] appended to its children. *)
Definition with_children (e : Element) (cs : list Element) : Element :=
  mkElement (tag e) (attrib e) (text e) (children e ++ cs).

(** What one call of [_add_element] does, in terms of [build], [builds]
    and [skipped]. *)
Definition builder_outcome (d : ElementSpec) : Prop :=
  ∀ parent fs,
    (builds d = true →
     _add_element parent d fs =
     (inr (match build d with
           | Some e => attach parent e
           | None => parent
           end, build d),
      fs, replicate (skipped d) MsgTagMissing))
    ∧ (builds d = false →
       ∃ e out, _add_element parent d fs = (inl e, fs, out)
                ∧ (e = AttributeError ∨ e = TypeError)).

(** A file system holding an image of three bytes. *)
Definition image_fs : FS :=
  mkFS {["scenery.png" := ["A"%byte; "B"%byte; "C"%byte]]} ∅ ∅.

(** Two documents that differ outside the text of their depth-2 elements:
    other tags and attributes, text at depth 1, a payload at depth 3. *)
Definition flat_document : Element :=
  mkElement "root" ∅ None [mkElement "group" ∅ None [title; good_image]].

Definition deep_document : Element :=
  mkElement "data" ∅ (Some good_payload)
    [mkElement "a" ∅ (Some good_payload)
       [mkElement "t" {["id" := "1"]} (Some "scenery.png.") [good_image]];
     mkElement "b" ∅ None
       [mkElement "s" ∅ (Some good_payload) [bad_image; end_tag]]].

(** A parser that tells two files apart by their first byte. *)
Definition parses_two (root1 root2 : Element) : list byte → option Element :=
  λ source,
    match source with
    | [] => Some root1
    | _ :: _ => Some root2
    end.

Definition two_files_fs : FS :=
  mkFS {["flat.xml" := []; "deep.xml" := ["<"%byte]]} ∅ ∅.

(** ** The script *)

(** What the script prints: the lines of the functions it calls, and its
    own two lines. *)
Inductive Line : Type :=
  | Printed (m : Msg)
  | MsgMainCreated                                       (* line 189 *)
  | MsgMainFailed.                                       (* line 191 *)

(** The truth value of a returned value under [if]. *)
Definition truthy (v : pyval) : bool :=
  match v with
  | PyNone => false
  | PyBool b => b
  | PyStr s => negb (String.eqb s "")
  end.

(** [f'{v}'] *)
Definition fstring (v : pyval) : string :=
  match v with
  | PyNone => "None"
  | PyBool true => "True"
  | PyBool false => "False"
  | PyStr s => s
  end.

(** [my_xml_data], lines 159-181. *)
Definition my_xml_data (image_file : string) (base64_string : pyval)
    : list ElementSpec :=
  [mkSpec (Val "root")
     (Val {["version" := "1.0"; "encoding" := "UTF-8"]})
     Absent
     (Val [mkSpec (Val "image_title")
             (Val {["id" := "1"; "type" := "image"]})
             (Val (image_file +:+ "."))
             (Val []);
           mkSpec (Val "image_string")
             (Val {["id" := "2"; "type" := "binary"]})
             (Val (fstring base64_string))
             (Val []);
           mkSpec (Val "end_tag") Absent Absent Absent])].

(** The document the script builds around the text [payload_text]. *)
Definition main_document (payload_text : string) : Element :=
  mkElement "root" ∅ None
    [mkElement "root" {["version" := "1.0"; "encoding" := "UTF-8"]} None
       [mkElement "image_title" {["id" := "1"; "type" := "image"]}
          (Some "scenery.png.") [];
        mkElement "image_string" {["id" := "2"; "type" := "binary"]}
          (Some payload_text) [];
        mkElement "end_tag" ∅ None []]].

Section Script.

Variable ET_tostring : Element → list byte.
Variable ET_fromstring : list byte → option Element.

(** The script, lines 153-195.  An exception escaping one of the three
    calls would end it there. *)
Definition main (fs : FS) : result unit * FS * list Line :=
  let image_file := "scenery.png" in
  match encode_image_to_base64 image_file fs with
  | (inl e, fs1, out1) => (inl e, fs1, Printed <$> out1)
  | (inr base64_string, fs1, out1) =>
      match create_xml_file ET_tostring "image.xml" "root"
              (Some (my_xml_data image_file base64_string)) fs1 with
      | (inl e, fs2, out2) => (inl e, fs2, Printed <$> (out1 ++ out2))
      | (inr created, fs2, out2) =>
          let line :=
            if truthy created then MsgMainCreated else MsgMainFailed in
          let xml_file := "image.xml" in
          match convert_xml_images ET_fromstring xml_file fs2 with
          | (inl e, fs3, out3) =>
              (inl e, fs3,
               (Printed <$> (out1 ++ out2)) ++ line :: (Printed <$> out3))
          | (inr _, fs3, out3) =>
              (inr (), fs3,
               (Printed <$> (out1 ++ out2)) ++ line :: (Printed <$> out3))
          end
      end
  end.

(** The file system once the script has written its XML file. *)
Definition after_create (payload_text : string) (fs : FS) : FS :=
  mkFS (<["image.xml" := xml_file ET_tostring (main_document payload_text)]>
          (files fs))
       (dirs fs) (denied fs).

End Script.

(** The document of the script as the parser gives it back when the text
    of the image is empty: the serializer writes an element with empty
    text as an empty element, which has no text once parsed. *)
Definition empty_image_document : Element :=
  mkElement "root" ∅ None
    [mkElement "root" {["version" := "1.0"; "encoding" := "UTF-8"]} None
       [mkElement "image_title" {["id" := "1"; "type" := "image"]}
          (Some "scenery.png.") [];
        mkElement "image_string" {["id" := "2"; "type" := "binary"]} None [];
        mkElement "end_tag" ∅ None []]].

(** A file system that holds an empty image. *)
Definition empty_image_fs : FS := mkFS {["scenery.png" := []]} ∅ ∅.

(** An image of 76 bytes, and a file system that holds it. *)
Definition big_image : list byte := repeat x00 76.

Definition big_image_fs : FS := mkFS {["scenery.png" := big_image]} ∅ ∅.

(** ** The payload writer on the file system alone *)

(** The output folder can be created (or is there already). *)
Definition folder_ok (fs : FS) : Prop :=
  ("extracted_images" ∉ denied fs) ∧ (files fs !! "extracted_images" = None).

(** The file system once the output folder is there. *)
Definition made (fs : FS) : FS :=
  mkFS (files fs) ({["extracted_images"]} ∪ dirs fs) (denied fs).

(** The write of a decoded text, when the text decodes and the file system
    takes the file. *)
Definition put (base64_string image_filename : string) (fs : FS) : FS :=
  match Base64.b64decode base64_string with
  | inl _ => fs
  | inr image_data =>
      if decide (output_path image_filename ∈ denied fs) then fs
      else if decide (output_path image_filename ∈ dirs fs) then fs
      else mkFS (<[output_path image_filename := image_data]> (files fs))
                (dirs fs) (denied fs)
  end.

(** [put] for the payloads [ps] under the indices [i], [i + 1], ... *)
Fixpoint puts (ps : list string) (i : nat) (fs : FS) : FS :=
  match ps with
  | [] => fs
  | p :: ps' => puts ps' (S i) (put p (image_name i) fs)
  end.

(** Unfolds the operations of [IO]. *)
Ltac io_unfold :=
  unfold mbind, IO_bind, mret, IO_ret, print, raise, lift, try_except,
    value_of, fs_of, output_of in *.

(** * Verification *)

(** ** The codec: decoding an encoding gives the bytes back *)

Module Base64Facts.
Import Base64 Base64Check.

Lemma in_upto k n : (n < N.of_nat k)%N → In n (upto k).
Proof.
  intros Hn. unfold upto. apply in_map_iff. exists (N.to_nat n).
  split; [apply N2Nat.id | apply in_seq; lia].
Qed.

Lemma check1_sound k P :
  check1 k P = true → ∀ n, (n < N.of_nat k)%N → P n = true.
Proof.
  unfold check1. rewrite forallb_forall. intros H n Hn.
  apply H, in_upto, Hn.
Qed.

Lemma check2_sound P :
  check2 P = true →
  ∀ a b, (a < 256)%N → (b < 256)%N → P a b = true.
Proof.
  unfold check2. rewrite forallb_forall. intros H a b Ha Hb.
  specialize (H a (in_upto 256 a Ha)). rewrite forallb_forall in H.
  apply H, (in_upto 256 b Hb).
Qed.

Lemma table_round_trip n :
  (n < 64)%N →
  table_a2b_base64 (table_b2a_base64 n) = Some n
  ∧ Ascii.eqb (table_b2a_base64 n) BASE64_PAD = false
  ∧ is_ascii (table_b2a_base64 n) = true.
Proof.
  intros Hn.
  assert (H : char_ok n = true).
  { apply (check1_sound 64); [vm_compute; reflexivity | exact Hn]. }
  unfold char_ok in H.
  apply andb_prop in H as [H Hasc]. apply andb_prop in H as [Htbl Hpad].
  destruct (table_a2b_base64 (table_b2a_base64 n)) as [m|]; [|discriminate].
  apply N.eqb_eq in Htbl. subst m.
  apply negb_true_iff in Hpad. auto.
Qed.

Lemma pair_facts a b :
  (a < 256)%N → (b < 256)%N →
  ((sextet0 a < 64)%N ∧ (sextet1 a b < 64)%N
   ∧ (sextet2 a b < 64)%N ∧ (sextet3 a < 64)%N)
  ∧ N.lor (N.shiftl (sextet0 a) 2) (N.shiftr (sextet1 a b) 4) = a
  ∧ N.land (sextet1 a b) 15 = N.shiftr b 4
  ∧ N.lor (N.shiftl (N.shiftr a 4) 4) (N.shiftr (sextet2 a b) 2) = a
  ∧ N.land (sextet2 a b) 3 = N.shiftr b 6
  ∧ N.lor (N.shiftl (N.shiftr a 6) 6) (sextet3 a) = a
  ∧ N.land a 255 = a.
Proof.
  intros Ha Hb.
  assert (H : pair_ok a b = true).
  { apply check2_sound; [vm_compute; reflexivity | exact Ha | exact Hb]. }
  unfold pair_ok in H.
  repeat (apply andb_prop in H as [H ?]).
  repeat match goal with
         | E : N.ltb _ _ = true |- _ => apply N.ltb_lt in E
         | E : N.eqb _ _ = true |- _ => apply N.eqb_eq in E
         end.
  auto 12.
Qed.

Lemma to_N_lt (b : byte) : (Byte.to_N b < 256)%N.
Proof. pose proof (Byte.to_N_bounded b). lia. Qed.

Lemma zero_lt : (0 < 256)%N.
Proof. reflexivity. Qed.

Lemma byte_of_to_N (b : byte) : byte_of_N (Byte.to_N b) = b.
Proof.
  unfold byte_of_N.
  destruct (pair_facts _ _ (to_N_lt b) zero_lt) as (_ & _ & _ & _ & _ & _ & ->).
  now rewrite Byte.of_to_N.
Qed.

(** One step of the decoder on a character of the alphabet. *)
Lemma a2b_data_char n s quad_pos leftchar pads out :
  (n < 64)%N →
  a2b_base64 (String (table_b2a_base64 n) s) quad_pos leftchar pads out =
  match quad_pos with
  | 0 => a2b_base64 s 1 n 0 out
  | 1 =>
      a2b_base64 s 2 (N.land n 15) 0
        (out ++ [byte_of_N (N.lor (N.shiftl leftchar 2) (N.shiftr n 4))])
  | 2 =>
      a2b_base64 s 3 (N.land n 3) 0
        (out ++ [byte_of_N (N.lor (N.shiftl leftchar 4) (N.shiftr n 2))])
  | _ =>
      a2b_base64 s 0 0 0 (out ++ [byte_of_N (N.lor (N.shiftl leftchar 6) n)])
  end.
Proof.
  intros Hn. destruct (table_round_trip n Hn) as (Htbl & Hpad & _).
  cbn [a2b_base64]. rewrite Hpad, Htbl. reflexivity.
Qed.

(** Induction over a byte sequence in groups of three. *)
Lemma list_ind3 {A} (P : list A → Prop) :
  P [] → (∀ a, P [a]) → (∀ a b, P [a; b]) →
  (∀ a b c l, P l → P (a :: b :: c :: l)) →
  ∀ l, P l.
Proof.
  intros H0 H1 H2 H3 l.
  assert (H : P l ∧ (∀ a, P (a :: l)) ∧ (∀ a b, P (a :: b :: l))).
  { induction l as [|c l (IH0 & IH1 & IH2)]; [auto|].
    split; [apply IH1|]. split; [intros a; apply IH2|].
    intros a b. apply H3, IH0. }
  apply H.
Qed.

Lemma a2b_b64encode (B out : list byte) :
  a2b_base64 (b64encode B) 0 0 0 out = inr (out ++ B).
Proof.
  revert out. induction B as [|b0|b0 b1|b0 b1 b2 rest IH] using list_ind3;
    intros out.
  - cbn. now rewrite app_nil_r.
  - cbn [b64encode].
    destruct (pair_facts _ _ (to_N_lt b0) zero_lt)
      as ((S0 & S1 & _ & _) & F1 & _).
    rewrite (a2b_data_char _ _ _ _ _ _ S0), (a2b_data_char _ _ _ _ _ _ S1).
    rewrite F1, byte_of_to_N. reflexivity.
  - cbn [b64encode].
    destruct (pair_facts _ _ (to_N_lt b0) (to_N_lt b1))
      as ((S0 & S1 & _ & _) & F1 & F2 & _).
    destruct (pair_facts _ _ (to_N_lt b1) zero_lt)
      as ((_ & _ & S2 & _) & _ & _ & F3 & _).
    rewrite (a2b_data_char _ _ _ _ _ _ S0), (a2b_data_char _ _ _ _ _ _ S1),
      (a2b_data_char _ _ _ _ _ _ S2).
    rewrite F1, F2, F3, !byte_of_to_N, <- app_assoc. reflexivity.
  - cbn [b64encode].
    destruct (pair_facts _ _ (to_N_lt b0) (to_N_lt b1))
      as ((S0 & S1 & _ & _) & F1 & F2 & _).
    destruct (pair_facts _ _ (to_N_lt b1) (to_N_lt b2))
      as ((_ & _ & S2 & _) & _ & _ & F3 & F4 & _).
    destruct (pair_facts _ _ (to_N_lt b2) zero_lt)
      as ((_ & _ & _ & S3) & _ & _ & _ & _ & F5 & _).
    rewrite (a2b_data_char _ _ _ _ _ _ S0), (a2b_data_char _ _ _ _ _ _ S1),
      (a2b_data_char _ _ _ _ _ _ S2), (a2b_data_char _ _ _ _ _ _ S3).
    rewrite F1, F2, F3, F4, F5, !byte_of_to_N, IH, <- !app_assoc.
    reflexivity.
Qed.

Lemma all_ascii_b64encode (B : list byte) : all_ascii (b64encode B) = true.
Proof.
  induction B as [|b0|b0 b1|b0 b1 b2 rest IH] using list_ind3;
    [reflexivity|..].
  - destruct (pair_facts _ _ (to_N_lt b0) zero_lt) as ((S0 & S1 & _) & _).
    cbn [b64encode all_ascii].
    rewrite (proj2 (proj2 (table_round_trip _ S0))),
      (proj2 (proj2 (table_round_trip _ S1))). reflexivity.
  - destruct (pair_facts _ _ (to_N_lt b0) (to_N_lt b1))
      as ((S0 & S1 & _) & _).
    destruct (pair_facts _ _ (to_N_lt b1) zero_lt)
      as ((_ & _ & S2 & _) & _).
    cbn [b64encode all_ascii].
    rewrite (proj2 (proj2 (table_round_trip _ S0))),
      (proj2 (proj2 (table_round_trip _ S1))),
      (proj2 (proj2 (table_round_trip _ S2))). reflexivity.
  - destruct (pair_facts _ _ (to_N_lt b0) (to_N_lt b1))
      as ((S0 & S1 & _) & _).
    destruct (pair_facts _ _ (to_N_lt b1) (to_N_lt b2))
      as ((_ & _ & S2 & _) & _).
    destruct (pair_facts _ _ (to_N_lt b2) zero_lt)
      as ((_ & _ & _ & S3) & _).
    cbn [b64encode all_ascii].
    rewrite (proj2 (proj2 (table_round_trip _ S0))),
      (proj2 (proj2 (table_round_trip _ S1))),
      (proj2 (proj2 (table_round_trip _ S2))),
      (proj2 (proj2 (table_round_trip _ S3))), IH. reflexivity.
Qed.

End Base64Facts.

(** C3.  For every byte sequence [B], [base64.b64decode] (the decoder of
    [save_base64_to_image]) applied to [base64.b64encode B] (the encoder of
    [encode_image_to_base64]) returns [B]: decoding is a left inverse of
    encoding. *)
Theorem b64decode_b64encode (B : list byte) :
  Base64.b64decode (Base64.b64encode B) = inr B.
Proof.
  unfold Base64.b64decode.
  rewrite Base64Facts.all_ascii_b64encode.
  apply (Base64Facts.a2b_b64encode B []).
Qed.

Example b64encode_ABC :
  Base64.b64encode ["A"%byte; "B"%byte; "C"%byte] = "QUJD".
Proof. reflexivity. Qed.

Example b64encode_Ma : Base64.b64encode ["M"%byte; "a"%byte] = "TWE=".
Proof. reflexivity. Qed.

Example b64decode_M : Base64.b64decode "TQ==" = inr ["M"%byte].
Proof. reflexivity. Qed.

Example b64decode_skips_newline :
  Base64.b64decode ("TW" +:+ String "010"%char "E=")
  = inr ["M"%byte; "a"%byte].
Proof. reflexivity. Qed.

Example b64decode_bad_length : Base64.b64decode "QUJDR" = inl BinasciiError.
Proof. reflexivity. Qed.

Example b64decode_non_ascii :
  Base64.b64decode (String "233"%char "QUJD") = inl ValueError.
Proof. reflexivity. Qed.

(** ** Running computations *)

Lemma bind_run {A B} (m : IO A) (f : A → IO B) fs :
  (m ≫= f) fs =
  match m fs with
  | (inr x, fs', out) =>
      let '(r, fs'', out') := f x fs' in (r, fs'', out ++ out')
  | (inl e, fs', out) => (inl e, fs', out)
  end.
Proof. reflexivity. Qed.

(** ** The payload writer *)

Lemma save_run s name fs :
  save_base64_to_image s name fs =
  match os_makedirs "extracted_images" fs with
  | (inl e, fs1, _) => (inr PyNone, fs1, [MsgSaveError e])
  | (inr _, fs1, _) =>
      match Base64.b64decode s with
      | inl BinasciiError => (inr PyNone, fs1, [MsgDecodeError BinasciiError])
      | inl e => (inr PyNone, fs1, [MsgSaveError e])
      | inr data =>
          match write_file (output_path name) data fs1 with
          | (inl e, fs2, _) => (inr PyNone, fs2, [MsgSaveError e])
          | (inr _, fs2, _) =>
              (inr PyNone, fs2, [MsgImageSaved (output_path name)])
          end
      end
  end.
Proof.
  unfold save_base64_to_image, output_path, os_makedirs. io_unfold.
  destruct (decide ("extracted_images" ∈ denied fs)); [reflexivity|].
  destruct (files fs !! "extracted_images"); [reflexivity|].
  destruct (Base64.b64decode s) as [[]|data]; try reflexivity.
  unfold write_file. cbn [denied dirs files].
  destruct (decide (_ ∈ denied fs)); [reflexivity|].
  destruct (decide (_ ∈ _)); reflexivity.
Qed.

Lemma save_value s name fs :
  value_of (save_base64_to_image s name fs) = inr PyNone.
Proof.
  rewrite save_run. unfold os_makedirs, write_file, value_of.
  repeat (case_decide || case_match); simplify_eq; reflexivity.
Qed.

Lemma save_output_no_download s name fs :
  downloads (output_of (save_base64_to_image s name fs)) = [].
Proof.
  rewrite save_run. unfold os_makedirs, write_file, output_of.
  repeat (case_decide || case_match); simplify_eq; reflexivity.
Qed.

Lemma save_denied s name fs :
  denied (fs_of (save_base64_to_image s name fs)) = denied fs.
Proof.
  rewrite save_run. unfold os_makedirs, write_file, fs_of.
  repeat (case_decide || case_match); simplify_eq; reflexivity.
Qed.

Lemma save_dirs s name fs p :
  p ∈ dirs (fs_of (save_base64_to_image s name fs)) →
  p = "extracted_images" ∨ p ∈ dirs fs.
Proof.
  rewrite save_run. unfold os_makedirs, write_file, fs_of.
  repeat (case_decide || case_match); simplify_eq; cbn [dirs];
    set_solver.
Qed.

Lemma save_files_other s name fs p :
  p ≠ output_path name →
  files (fs_of (save_base64_to_image s name fs)) !! p = files fs !! p.
Proof.
  intros Hp. rewrite save_run. unfold os_makedirs, write_file, fs_of.
  repeat (case_decide || case_match); simplify_eq; cbn [files];
    try reflexivity.
  now apply lookup_insert_ne.
Qed.

(** ** File names *)

Lemma string_length_app (s1 s2 : string) :
  String.length (s1 +:+ s2) = String.length s1 + String.length s2.
Proof.
  induction s1 as [|c s1 IH]; [reflexivity|].
  change (String c s1 +:+ s2) with (String c (s1 +:+ s2)).
  cbn [String.length]. now rewrite IH.
Qed.

Lemma string_app_assoc (s1 s2 s3 : string) :
  (s1 +:+ s2) +:+ s3 = s1 +:+ (s2 +:+ s3).
Proof.
  induction s1 as [|c s1 IH]; [reflexivity|].
  change (String c ((s1 +:+ s2) +:+ s3) = String c (s1 +:+ (s2 +:+ s3))).
  now rewrite IH.
Qed.

Lemma string_app_inv_r (s1 s2 t : string) : s1 +:+ t = s2 +:+ t → s1 = s2.
Proof.
  revert s2. induction s1 as [|c s1 IH]; intros [|d s2] H.
  - reflexivity.
  - apply (f_equal String.length) in H.
    rewrite !string_length_app in H. cbn in H. lia.
  - apply (f_equal String.length) in H.
    rewrite !string_length_app in H. cbn in H. lia.
  - change (String c (s1 +:+ t) = String d (s2 +:+ t)) in H.
    injection H as -> H. f_equal. now apply IH.
Qed.

Lemma string_app_not_self (s t : string) : t ≠ "" → s +:+ t ≠ s.
Proof.
  intros Ht H. apply (f_equal String.length) in H.
  rewrite string_length_app in H. destruct t; [congruence | cbn in H; lia].
Qed.


(** On a file system that allows it, decodable text is stored under the
    output path and the path is printed. *)
Lemma save_stores s name fs data :
  storable fs (output_path name) →
  Base64.b64decode s = inr data →
  save_base64_to_image s name fs =
  (inr PyNone,
   mkFS (<[output_path name := data]> (files fs))
        ({["extracted_images"]} ∪ dirs fs) (denied fs),
   [MsgImageSaved (output_path name)]).
Proof.
  intros (Hfolder & Hfile & Hden & Hdir) Hdec.
  rewrite save_run, Hdec. unfold os_makedirs, write_file.
  rewrite decide_False by assumption. rewrite Hfile. cbn [denied dirs files].
  rewrite decide_False by assumption.
  destruct (decide (output_path name ∈ {["extracted_images"]} ∪ dirs fs))
    as [Hin|_]; [|reflexivity].
  apply elem_of_union in Hin as [Hin|Hin]; [|contradiction].
  apply elem_of_singleton in Hin.
  unfold output_path, os_path_join in Hin. exfalso.
  destruct (String.prefix "/" name) eqn:Hpre.
  - subst name. discriminate Hpre.
  - change (("extracted_images" +:+ "/") +:+ name = "extracted_images") in Hin.
    rewrite string_app_assoc in Hin.
    now apply string_app_not_self in Hin.
Qed.

Lemma output_path_image_name i :
  output_path (image_name i) =
  "extracted_images/extracted_image" +:+ pretty i +:+ ".jpg".
Proof. reflexivity. Qed.

Lemma output_path_inj i j :
  output_path (image_name i) = output_path (image_name j) → i = j.
Proof.
  rewrite !output_path_image_name. intros H.
  apply String.app_inj in H. apply string_app_inv_r in H.
  now apply (inj pretty) in H.
Qed.

Lemma output_path_not_folder i :
  output_path (image_name i) ≠ "extracted_images".
Proof.
  rewrite output_path_image_name.
  change "extracted_images/extracted_image"
    with ("extracted_images" +:+ "/extracted_image").
  rewrite !string_app_assoc. now apply string_app_not_self.
Qed.

(** ** Storing payloads one after the other *)

Lemma store_all_app ps qs i fs :
  store_all (ps ++ qs) i fs = store_all qs (i + length ps) (store_all ps i fs).
Proof.
  revert i fs. induction ps as [|p ps IH]; intros i fs; cbn.
  - now rewrite Nat.add_0_r.
  - rewrite IH. f_equal. lia.
Qed.

Lemma store_all_files_other ps (i : nat) fs p :
  (∀ j : nat, (i ≤ j)%nat → p ≠ output_path (image_name j)) →
  files (store_all ps i fs) !! p = files fs !! p.
Proof.
  revert i fs. induction ps as [|q ps IH]; intros i fs Hp; cbn; [reflexivity|].
  rewrite IH by (intros j Hj; apply Hp; lia).
  apply save_files_other, Hp. lia.
Qed.

Lemma storable_save s i fs p :
  p ≠ "extracted_images" →
  storable fs p → storable (fs_of (save_base64_to_image s (image_name i) fs)) p.
Proof.
  intros Hp (Hfolder & Hfile & Hden & Hdir). unfold storable.
  rewrite save_denied, save_files_other
    by (intros E; symmetry in E; exact (output_path_not_folder i E)).
  repeat split; try assumption.
  intros Hin. apply save_dirs in Hin as [->|Hin]; [now apply Hp | now apply Hdir].
Qed.

Lemma storable_store_all ps i fs p :
  p ≠ "extracted_images" → storable fs p → storable (store_all ps i fs) p.
Proof.
  intros Hp. revert i fs. induction ps as [|q ps IH]; intros i fs Hs; cbn;
    [assumption|].
  apply IH, storable_save; assumption.
Qed.

(** ** The scanner *)

Lemma downloads_app out1 out2 :
  downloads (out1 ++ out2) = downloads out1 ++ downloads out2.
Proof. apply omap_app. Qed.

Lemma scanned_app es1 es2 :
  scanned (es1 ++ es2) =
  if forallb has_text es1 then es1 ++ scanned es2 else scanned es1.
Proof.
  induction es1 as [|e es1 IH]; cbn; [reflexivity|].
  destruct (has_text e); cbn; [|reflexivity].
  rewrite IH. now destruct (forallb has_text es1).
Qed.

Lemma payloads_app es1 es2 : payloads (es1 ++ es2) = payloads es1 ++ payloads es2.
Proof. apply omap_app. Qed.

(** One depth-2 element. *)
Lemma scan_level_2_run e (i : nat) fs :
  scan_level_2 e i fs =
  match text e with
  | None => (inl TypeError, fs, [MsgLevel2 (tag e) (attrib e)])
  | Some t =>
      if Nat.ltb 100 (String.length t) then
        let r := save_base64_to_image t (image_name i) fs in
        (inr (i + 1), fs_of r,
         MsgLevel2 (tag e) (attrib e) :: MsgDownloading i :: output_of r)
      else (inr i, fs, [MsgLevel2 (tag e) (attrib e)])
  end.
Proof.
  unfold scan_level_2. destruct (text e) as [t|]; [|reflexivity].
  destruct (Nat.ltb 100 (String.length t)); [|reflexivity].
  pose proof (save_value t (image_name i) fs) as Hv. io_unfold.
  destruct (save_base64_to_image t (image_name i) fs) as [[v fs'] out].
  cbn in Hv. subst v. cbn. now rewrite app_nil_r.
Qed.

Lemma for_each_cons {A S} (x : A) xs (body : A → S → IO S) s fs :
  for_each (x :: xs) body s fs =
  match body x s fs with
  | (inr s', fs', out) =>
      let '(r, fs'', out') := for_each xs body s' fs' in (r, fs'', out ++ out')
  | (inl e, fs', out) => (inl e, fs', out)
  end.
Proof. reflexivity. Qed.

Lemma payloads_cons e es :
  payloads (e :: es) =
  match payload e with
  | Some t => t :: payloads es
  | None => payloads es
  end.
Proof. reflexivity. Qed.

(** The inner loop over the children of one depth-1 element. *)
Lemma inner_loop_run es (i : nat) fs :
  let r := for_each es scan_level_2 i fs in
  fs_of r = store_all (payloads (scanned es)) i fs
  ∧ downloads (output_of r) = seq i (length (payloads (scanned es)))
  ∧ value_of r =
      if forallb has_text es then inr (i + length (payloads es))
      else inl TypeError.
Proof.
  revert i fs. induction es as [|e es IH]; intros i fs.
  - cbn. rewrite Nat.add_0_r. auto.
  - cbn zeta. rewrite for_each_cons, scan_level_2_run.
    cbn [scanned forallb].
    destruct (text e) as [t|] eqn:Ht.
    2:{ assert (Hh : has_text e = false) by (unfold has_text; now rewrite Ht).
        rewrite Hh. cbn. auto. }
    assert (Hh : has_text e = true) by (unfold has_text; now rewrite Ht).
    assert (Hp : payload e =
                 if Nat.ltb 100 (String.length t) then Some t else None)
      by (unfold payload; now rewrite Ht).
    rewrite Hh, !payloads_cons, Hp. clear Hh Hp.
    destruct (Nat.ltb 100 (String.length t)).
    + cbn zeta.
      pose proof (save_output_no_download t (image_name i) fs) as Hs.
      specialize (IH (i + 1) (fs_of (save_base64_to_image t (image_name i) fs))).
      cbn zeta in IH. destruct IH as (IHfs & IHout & IHv).
      destruct (for_each es scan_level_2 _ _) as [[v fs'] out].
      unfold fs_of, output_of, value_of in *. cbn [fst snd] in *.
      cbn [length store_all seq andb].
      replace (S i) with (i + 1) by lia.
      split; [exact IHfs|]. split.
      * change (downloads ([MsgLevel2 (tag e) (attrib e)] ++ [MsgDownloading i]
                  ++ (save_base64_to_image t (image_name i) fs).2 ++ out)
                = i :: seq (i + 1) (length (payloads (scanned es)))).
        rewrite !downloads_app, IHout, Hs. reflexivity.
      * rewrite IHv. destruct (forallb _ es); [f_equal; lia | reflexivity].
    + specialize (IH i fs). cbn zeta in IH. destruct IH as (IHfs & IHout & IHv).
      destruct (for_each es scan_level_2 _ _) as [[v fs'] out].
      unfold fs_of, output_of, value_of in *. cbn [fst snd] in *.
      cbn [andb]. auto.
Qed.

Lemma scanned_all es : forallb has_text es = true → scanned es = es.
Proof.
  induction es as [|e es IH]; cbn; [reflexivity|].
  destruct (has_text e); cbn; [|discriminate]. intros H. now rewrite IH.
Qed.

Lemma scan_level_1_run g (i : nat) fs :
  scan_level_1 g i fs =
  let r := for_each (children g) scan_level_2 i fs in
  (value_of r, fs_of r, MsgLevel1 (tag g) (attrib g) :: output_of r).
Proof.
  unfold scan_level_1. io_unfold.
  now destruct (for_each (children g) scan_level_2 i fs) as [[v fs'] out].
Qed.

(** The outer loop over the depth-1 elements [gs]. *)
Lemma outer_loop_run gs (i : nat) fs :
  let es := concat (map children gs) in
  let r := for_each gs scan_level_1 i fs in
  fs_of r = store_all (payloads (scanned es)) i fs
  ∧ downloads (output_of r) = seq i (length (payloads (scanned es)))
  ∧ value_of r =
      if forallb has_text es then inr (i + length (payloads es))
      else inl TypeError.
Proof.
  revert i fs. induction gs as [|g gs IH]; intros i fs.
  - cbn. rewrite Nat.add_0_r. auto.
  - cbn zeta. cbn [map concat].
    rewrite for_each_cons, scan_level_1_run. cbn zeta.
    destruct (inner_loop_run (children g) i fs) as (Hfs & Hout & Hv).
    cbn zeta in Hfs, Hout, Hv.
    rewrite scanned_app, forallb_app, payloads_app.
    destruct (for_each (children g) scan_level_2 i fs) as [[v1 fs1] out1].
    unfold fs_of, output_of, value_of in *. cbn [fst snd] in *.
    destruct (forallb has_text (children g)) eqn:Hall.
    + rewrite (scanned_all _ Hall) in Hfs, Hout. subst v1. cbv beta iota zeta.
      specialize (IH (i + length (payloads (children g))) fs1).
      cbn zeta in IH. destruct IH as (IHfs & IHout & IHv).
      destruct (for_each gs scan_level_1 _ fs1) as [[v2 fs2] out2].
      unfold fs_of, output_of, value_of in *. cbn [fst snd andb] in *.
      rewrite payloads_app, store_all_app, length_app, seq_app, <- Hfs.
      split; [exact IHfs|]. split.
      * change (downloads ([MsgLevel1 (tag g) (attrib g)] ++ out1 ++ out2) =
                seq i (length (payloads (children g))) ++
                seq (i + length (payloads (children g)))
                    (length (payloads (scanned (concat (map children gs)))))).
        rewrite !downloads_app, Hout, IHout. reflexivity.
      * rewrite IHv.
        destruct (forallb has_text _);
          [f_equal; rewrite ?length_app; lia | reflexivity].
    + subst v1. cbn [fst snd andb].
      split; [exact Hfs|]. split; [exact Hout | reflexivity].
Qed.

Section Extraction.

Variable ET_fromstring : list byte → option Element.

(** The scan of a parsed document stores the payloads found before the
    first depth-2 element without text, and nothing else. *)
Lemma convert_run xml_file_path fs root :
  ET_parse ET_fromstring xml_file_path fs = (inr root, fs, []) →
  let r := convert_xml_images ET_fromstring xml_file_path fs in
  let ps := payloads (scanned (depth2 root)) in
  value_of r = inr PyNone
  ∧ fs_of r = store_all ps 0 fs
  ∧ downloads (output_of r) = seq 0 (length ps)
  ∧ (forallb has_text (depth2 root) = false →
     last (output_of r) = Some (MsgException TypeError)).
Proof.
  intros Hparse. cbn zeta.
  destruct (outer_loop_run (children root) 0 fs) as (Hfs & Hout & Hv).
  cbn zeta in Hfs, Hout, Hv. fold (depth2 root) in Hfs, Hout, Hv.
  unfold convert_xml_images. io_unfold. rewrite Hparse.
  cbv beta iota zeta.
  destruct (for_each (children root) scan_level_1 0 fs) as [[v fs'] out].
  cbn [fst snd] in Hfs, Hout, Hv.
  destruct v as [e|n]; cbn [fst snd app].
  - split; [reflexivity|]. split; [exact Hfs|]. split.
    + change (downloads ([MsgRoot (tag root)] ++ out ++ [MsgException e]) =
              seq 0 (length (payloads (scanned (depth2 root))))).
      rewrite !downloads_app, Hout. cbn. now rewrite app_nil_r.
    + intros Hall. rewrite Hall in Hv. simplify_eq.
      change (last ((MsgRoot (tag root) :: out) ++ [MsgException TypeError]) =
              Some (MsgException TypeError)).
      apply last_snoc.
  - split; [reflexivity|]. split; [exact Hfs|]. split.
    + rewrite app_nil_r. exact Hout.
    + intros Hall. rewrite Hall in Hv. discriminate Hv.
Qed.

(** The scan ends at the first depth-2 element without text: what comes
    after it is never looked at. *)
Lemma scan_stops_at_textless_element xml_file_path fs root pre e post :
  ET_parse ET_fromstring xml_file_path fs = (inr root, fs, []) →
  depth2 root = pre ++ e :: post →
  forallb has_text pre = true →
  text e = None →
  let r := convert_xml_images ET_fromstring xml_file_path fs in
  fs_of r = store_all (payloads pre) 0 fs
  ∧ downloads (output_of r) = seq 0 (length (payloads pre))
  ∧ last (output_of r) = Some (MsgException TypeError).
Proof.
  intros Hparse Hdoc Hpre He. cbn zeta.
  destruct (convert_run _ _ _ Hparse) as (_ & Hfs & Hout & Hlast).
  assert (Hh : has_text e = false) by (unfold has_text; now rewrite He).
  assert (Hs : scanned (depth2 root) = pre).
  { rewrite Hdoc, scanned_app, Hpre. cbn [scanned]. rewrite Hh.
    apply app_nil_r. }
  rewrite Hs in Hfs, Hout. split; [exact Hfs|]. split; [exact Hout|].
  apply Hlast. rewrite Hdoc, forallb_app. cbn [forallb]. rewrite Hh.
  now rewrite andb_false_r.
Qed.

(** C5.  For every parsed document the indices announced by the scanner
    are 0, 1, ..., k - 1 in this order, where k is the number of depth-2
    elements classified as payloads (those scanned, whose text is longer
    than 100 characters), and the file system at the end is the one
    obtained by storing the i-th such payload, in document order, under
    the index i: elements with shorter text take no index. *)
Theorem extraction_indices xml_file_path fs root :
  ET_parse ET_fromstring xml_file_path fs = (inr root, fs, []) →
  let r := convert_xml_images ET_fromstring xml_file_path fs in
  let ps := payloads (scanned (depth2 root)) in
  downloads (output_of r) = seq 0 (length ps)
  ∧ fs_of r = store_all ps 0 fs
  ∧ (forallb has_text (depth2 root) = true → ps = payloads (depth2 root)).
Proof.
  intros Hparse. cbn zeta.
  destruct (convert_run _ _ _ Hparse) as (_ & Hfs & Hout & _).
  split; [exact Hout|]. split; [exact Hfs|].
  intros Hall. now rewrite scanned_all.
Qed.

(** C4.  In a parsed document, let [good] be a depth-2 element carrying
    well-formed base64 text longer than 100 characters, and [bad] another
    depth-2 element whose text, also longer than 100 characters, does not
    decode.  If the elements before [good] all have text and the file
    system accepts the output file, then after the scan the output file of
    [good] holds its decoded bytes, wherever [bad] stands. *)
Theorem malformed_sibling_does_not_block
    xml_file_path fs root pre good post bad tbad e g data :
  ET_parse ET_fromstring xml_file_path fs = (inr root, fs, []) →
  depth2 root = pre ++ good :: post →
  In bad (pre ++ post) →
  text bad = Some tbad → (100 < String.length tbad)%nat →
  Base64.b64decode tbad = inl e →
  forallb has_text pre = true →
  text good = Some g → (100 < String.length g)%nat →
  Base64.b64decode g = inr data →
  storable fs (output_path (image_name (length (payloads pre)))) →
  files (fs_of (convert_xml_images ET_fromstring xml_file_path fs))
    !! output_path (image_name (length (payloads pre))) = Some data.
Proof.
  intros Hparse Hdoc _ _ _ _ Hpre Hg Hlen Hdec Hstore.
  destruct (convert_run _ _ _ Hparse) as (_ & -> & _ & _).
  rewrite Hdoc, scanned_app, Hpre. cbn [scanned].
  assert (Hh : has_text good = true) by (unfold has_text; now rewrite Hg).
  assert (Hp : payload good = Some g).
  { unfold payload. rewrite Hg. apply Nat.ltb_lt in Hlen. now rewrite Hlen. }
  rewrite Hh, payloads_app, payloads_cons, Hp, store_all_app.
  cbn [store_all Nat.add].
  set (k := length (payloads pre)) in *.
  set (fs1 := store_all (payloads pre) 0 fs).
  assert (Hs1 : storable fs1 (output_path (image_name k)))
    by (apply storable_store_all; [apply output_path_not_folder | exact Hstore]).
  rewrite store_all_files_other.
  - rewrite (save_stores _ _ _ _ Hs1 Hdec). cbn [fs_of fst snd files].
    apply lookup_insert_eq.
  - intros j Hj E. apply output_path_inj in E. lia.
Qed.

End Extraction.

(** C2.  A depth-2 element with text [t] is treated as a payload (its index
    is announced, its text is handed to [save_base64_to_image] and the index
    advances) exactly when [t] is longer than 100 characters, and is passed
    over (nothing announced, nothing stored, same index) exactly when [t] has
    at most 100 characters. *)
Theorem payload_iff_longer_than_100 e t (i : nat) fs :
  text e = Some t →
  let r := scan_level_2 e i fs in
  ((downloads (output_of r) = [i] ∧ value_of r = inr (i + 1)
    ∧ fs_of r = fs_of (save_base64_to_image t (image_name i) fs))
   ↔ (100 < String.length t)%nat)
  ∧ ((downloads (output_of r) = [] ∧ value_of r = inr i ∧ fs_of r = fs)
     ↔ (String.length t ≤ 100)%nat).
Proof.
  intros Ht. cbn zeta. rewrite scan_level_2_run, Ht.
  destruct (Nat.ltb 100 (String.length t)) eqn:Hlen.
  - apply Nat.ltb_lt in Hlen. cbn zeta.
    unfold fs_of, output_of, value_of. cbn [fst snd].
    pose proof (save_output_no_download t (image_name i) fs) as Hs.
    unfold output_of in Hs.
    change (downloads (MsgLevel2 (tag e) (attrib e) :: MsgDownloading i
                         :: (save_base64_to_image t (image_name i) fs).2))
      with (i :: downloads (save_base64_to_image t (image_name i) fs).2).
    rewrite Hs. split; split; try (intros; lia); auto.
    intros (Hd & _). discriminate Hd.
  - apply Nat.ltb_ge in Hlen.
    unfold fs_of, output_of, value_of. cbn [fst snd].
    split; split; try (intros; lia); auto.
    intros (Hd & _). discriminate Hd.
Qed.

Lemma payload_iff_longer_than_100_witness :
  text good_image = Some good_payload
  ∧ value_of (scan_level_2 good_image 0 sample_fs) = inr 1.
Proof.
  split; [reflexivity|].
  apply (payload_iff_longer_than_100 good_image good_payload 0 sample_fs eq_refl).
  apply Nat.ltb_lt. vm_compute. reflexivity.
Defined.

(** The boundary of C2 on the code: 100 characters are passed over, 101
    characters are a payload. *)
Example threshold_100 :
  scan_level_2 (leaf "x" (Some (repeat_char "A" 100))) 7 sample_fs =
  (inr 7, sample_fs, [MsgLevel2 "x" ∅]).
Proof. vm_compute. reflexivity. Qed.

Example threshold_101 :
  let r := scan_level_2 (leaf "x" (Some (repeat_char "A" 101))) 7 sample_fs in
  value_of r = inr 8 ∧ downloads (output_of r) = [7].
Proof. vm_compute. split; reflexivity. Qed.

Lemma extraction_indices_witness :
  ET_parse (parses_to sample_document) "image.xml" sample_fs =
    (inr sample_document, sample_fs, [])
  ∧ downloads (output_of (convert_xml_images (parses_to sample_document)
                            "image.xml" sample_fs)) = [0; 1].
Proof.
  split; [reflexivity|].
  exact (proj1 (extraction_indices (parses_to sample_document) "image.xml"
                  sample_fs sample_document eq_refl)).
Defined.

Lemma sample_storable (i : nat) :
  storable sample_fs (output_path (image_name i)).
Proof. repeat split; [set_solver | set_solver | set_solver]. Qed.

Lemma malformed_sibling_does_not_block_witness :
  Base64.b64decode bad_payload = inl BinasciiError
  ∧ Base64.b64decode good_payload = inr (repeat x00 78)
  ∧ files (fs_of (convert_xml_images (parses_to sample_document)
                    "image.xml" sample_fs))
      !! "extracted_images/extracted_image1.jpg" = Some (repeat x00 78).
Proof.
  split; [vm_compute; reflexivity|]. split; [vm_compute; reflexivity|].
  apply (malformed_sibling_does_not_block (parses_to sample_document)
           "image.xml" sample_fs sample_document
           [title; bad_image] good_image [end_tag]
           bad_image bad_payload BinasciiError good_payload (repeat x00 78)).
  - reflexivity.
  - reflexivity.
  - cbn. tauto.
  - reflexivity.
  - apply Nat.ltb_lt. vm_compute. reflexivity.
  - vm_compute. reflexivity.
  - reflexivity.
  - reflexivity.
  - apply Nat.ltb_lt. vm_compute. reflexivity.
  - vm_compute. reflexivity.
  - apply sample_storable.
Defined.

(** C1.  What the scanner does on
    <root><group><end_tag/><image_string>payload</image_string></group></root>:
    [len(None)] raises [TypeError] on the element without text, the handler
    of line 127 prints it and the function returns; the payload that follows
    is not extracted (no "Downloading" line, file system unchanged), although
    the same payload alone in its group is stored under index 0. *)
Theorem textless_element_aborts_scan :
  convert_xml_images (parses_to textless_first_document) "image.xml" sample_fs
  = (inr PyNone, sample_fs,
     [MsgRoot "root"; MsgLevel1 "group" ∅; MsgLevel2 "end_tag" ∅;
      MsgException TypeError])
  ∧ files (fs_of (convert_xml_images (parses_to payload_only_document)
                    "image.xml" sample_fs))
      !! "extracted_images/extracted_image0.jpg" = Some (repeat x00 78).
Proof. vm_compute. split; reflexivity. Qed.

(** ** The tree builder *)

Section SpecInduction.

Variable P : ElementSpec → Prop.

Hypothesis step : ∀ t a x c,
  match c with
  | Val ds => Forall P ds
  | Absent | IsNone => True
  end →
  P (mkSpec t a x c).

(** Induction over a description together with all of its children. *)
Lemma ElementSpec_nested_ind (d : ElementSpec) : P d.
Proof.
  revert d. fix IH 1. intros [t a x c]. apply step.
  destruct c as [| |ds]; [exact I | exact I |].
  induction ds as [|d' ds IHds]; constructor; [apply IH | exact IHds].
Qed.

End SpecInduction.

Lemma for_each_app {A S} (xs ys : list A) (body : A → S → IO S) s fs :
  for_each (xs ++ ys) body s fs =
  match for_each xs body s fs with
  | (inr s', fs', out) =>
      let '(r, fs'', out') := for_each ys body s' fs' in (r, fs'', out ++ out')
  | (inl e, fs', out) => (inl e, fs', out)
  end.
Proof.
  revert s fs. induction xs as [|x xs IH]; intros s fs.
  - cbn. now destruct (for_each ys body s fs) as [[r fs'] out].
  - cbn [app]. rewrite !for_each_cons.
    destruct (body x s fs) as [[[e|s1] fs1] out1]; [reflexivity|].
    rewrite IH.
    destruct (for_each xs body s1 fs1) as [[[e|s2] fs2] out2]; [reflexivity|].
    destruct (for_each ys body s2 fs2) as [[r fs3] out3].
    now rewrite app_assoc.
Qed.

(** The loop over the children (lines 88-89) is the loop of lines 93-94
    run on the new element. *)
Lemma add_children_run children element fs :
  (fix add_children (children : list ElementSpec) (element : Element)
     : IO Element :=
     match children with
     | [] => mret element
     | child_data :: children' =>
         r ← _add_element element child_data;
         add_children children' r.1
     end) children element fs
  = add_elements children element fs.
Proof.
  revert element fs. induction children as [|d ds IH]; intros element fs;
    [reflexivity|].
  unfold add_elements. rewrite for_each_cons, !bind_run.
  destruct (_add_element element d fs) as [[[e|[element' r]] fs'] out];
    [reflexivity|].
  cbn [mret IO_ret fst]. rewrite IH. unfold add_elements.
  destruct (for_each ds _ element' fs') as [[v fs''] out'].
  now rewrite app_nil_r.
Qed.

(** One call of [_add_element], with the loop over the children written
    as [add_elements]. *)
Lemma _add_element_run parent d fs :
  _add_element parent d fs =
  match get (s_tag d) with
  | None => (inr (parent, None), fs, [MsgTagMissing])
  | Some tag =>
      if String.eqb tag "" then (inr (parent, None), fs, [MsgTagMissing])
      else
        match get_default (s_attributes d) ∅ with
        | None => (inl AttributeError, fs, [])
        | Some attributes =>
            match get_default (s_children d) [] with
            | None => (inl TypeError, fs, [])
            | Some children =>
                match add_elements children
                        (new_element tag attributes (get (s_text d))) fs with
                | (inr element, fs', out) =>
                    (inr (attach parent element, Some element), fs', out)
                | (inl e, fs', out) => (inl e, fs', out)
                end
            end
        end
  end.
Proof.
  destruct d as [t a x c]. cbn [_add_element s_tag s_attributes s_text s_children].
  destruct (get t) as [tag|]; [|reflexivity].
  destruct (String.eqb tag ""); [reflexivity|].
  destruct a as [| |attributes]; cbn [get_default]; [|reflexivity|].
  all: rewrite bind_run; cbn [mret IO_ret]; cbv beta iota zeta.
  all: fold (new_element tag ∅ (get x)) || fold (new_element tag attributes (get x)).
  all: destruct c as [| |children]; cbn [get_default]; try reflexivity.
  all: rewrite bind_run, add_children_run.
  all: destruct (add_elements children _ fs) as [[[e|element] fs'] out];
    cbv beta iota zeta delta [mret IO_ret]; cbn [app]; rewrite ?app_nil_r;
    reflexivity.
Qed.

Lemma add_elements_cons d ds root fs :
  add_elements (d :: ds) root fs =
  match _add_element root d fs with
  | (inr r, fs', out) =>
      let '(v, fs'', out') := add_elements ds r.1 fs' in (v, fs'', out ++ out')
  | (inl e, fs', out) => (inl e, fs', out)
  end.
Proof.
  unfold add_elements. rewrite for_each_cons, bind_run.
  destruct (_add_element root d fs) as [[[e|r] fs'] out]; [reflexivity|].
  cbn [mret IO_ret]. cbv beta iota zeta. now rewrite app_nil_r.
Qed.

(** A missing tag: a diagnostic, nothing attached, no exception. *)
Lemma _add_element_tag_missing parent d fs :
  tag_missing d →
  _add_element parent d fs = (inr (parent, None), fs, [MsgTagMissing]).
Proof.
  unfold tag_missing. intros H. rewrite _add_element_run.
  destruct (s_tag d) as [| |t]; cbn [get]; [reflexivity | reflexivity |].
  now subst t.
Qed.

Lemma _add_element_parent parent d fs parent' r fs' out :
  _add_element parent d fs = (inr (parent', r), fs', out) →
  same_node parent parent'.
Proof.
  rewrite _add_element_run. unfold same_node.
  repeat case_match; intros; simplify_eq; auto.
Qed.

Lemma add_elements_node ds root fs root' fs' out :
  add_elements ds root fs = (inr root', fs', out) → same_node root root'.
Proof.
  revert root fs out. induction ds as [|d ds IH]; intros root fs out.
  - intros [= <- _ _]. now unfold same_node.
  - rewrite add_elements_cons.
    destruct (_add_element root d fs) as [[[e|[root1 r]] fs1] out1] eqn:Hd;
      [discriminate|].
    cbn [fst].
    destruct (add_elements ds root1 fs1) as [[v fs2] out2] eqn:Hds.
    intros [= -> -> _].
    apply _add_element_parent in Hd as (Ht & Ha & Hx).
    apply IH in Hds as (Ht' & Ha' & Hx').
    unfold same_node. now rewrite Ht', Ha', Hx'.
Qed.

Lemma new_element_node t attributes x :
  let e := new_element t attributes x in
  tag e = t ∧ attrib e = attributes ∧ text e = x ∧ children e = [].
Proof.
  cbn zeta. unfold new_element.
  assert (H : let e := map_fold (λ attr value element, set element attr value)
                         (SubElement t) attributes in
              tag e = t ∧ attrib e = attributes ∧ text e = None
              ∧ children e = []).
  { apply (map_fold_weak_ind
             (λ e m, tag e = t ∧ attrib e = m ∧ text e = None ∧ children e = [])).
    - now cbn.
    - intros k v m e _ (Ht & Ha & Hx & Hc). cbn. now rewrite Ha. }
  cbn zeta in H. destruct H as (Ht & Ha & Hx & Hc).
  destruct x as [x|]; cbn; auto.
Qed.

(** The builder never touches the file system. *)
Lemma _add_element_fs d : ∀ parent fs, fs_of (_add_element parent d fs) = fs.
Proof.
  induction d as [t a x c IH] using ElementSpec_nested_ind.
  intros parent fs. rewrite _add_element_run.
  cbn [s_tag s_attributes s_text s_children].
  destruct (get t) as [name|]; [|reflexivity].
  destruct (String.eqb name ""); [reflexivity|].
  destruct (get_default a ∅) as [attributes|]; [|reflexivity].
  destruct c as [| |ds]; cbn [get_default]; [reflexivity | reflexivity |].
  assert (Hloop : ∀ element fs, fs_of (add_elements ds element fs) = fs).
  { clear parent fs. induction IH as [|d ds Hd _ IHds]; intros element fs.
    - reflexivity.
    - rewrite add_elements_cons. specialize (Hd element fs).
      destruct (_add_element element d fs) as [[[e|r] fs1] out1];
        unfold fs_of in Hd; cbn [fst snd] in Hd; subst fs1; [reflexivity|].
      specialize (IHds r.1 fs).
      destruct (add_elements ds r.1 fs) as [[v fs2] out2]. exact IHds. }
  specialize (Hloop (new_element name attributes (get x)) fs).
  destruct (add_elements ds _ fs) as [[[e|element] fs'] out]; exact Hloop.
Qed.

Lemma add_elements_fs ds : ∀ root fs, fs_of (add_elements ds root fs) = fs.
Proof.
  induction ds as [|d ds IH]; intros root fs; [reflexivity|].
  rewrite add_elements_cons. pose proof (_add_element_fs d root fs) as Hd.
  destruct (_add_element root d fs) as [[[e|r] fs1] out1];
    unfold fs_of in Hd; cbn [fst snd] in Hd; subst fs1; [reflexivity|].
  specialize (IH r.1 fs).
  destruct (add_elements ds r.1 fs) as [[v fs2] out2]. exact IH.
Qed.

(** C6.  A description whose tag is absent, [None] or empty makes
    [_add_element] print the diagnostic and attach nothing, without raising;
    in a list of descriptions, those before it are processed first, then the
    diagnostic is printed, then those after it are processed on the same
    tree, so the tree built is the one built from the list without it. *)
Theorem missing_tag_skips_only_that_spec pre bad post root fs :
  tag_missing bad →
  (∀ parent fs',
     _add_element parent bad fs' = (inr (parent, None), fs', [MsgTagMissing]))
  ∧ add_elements (pre ++ bad :: post) root fs =
      match add_elements pre root fs with
      | (inr root1, fs1, out1) =>
          let '(v, fs2, out2) := add_elements post root1 fs1 in
          (v, fs2, out1 ++ MsgTagMissing :: out2)
      | (inl e, fs1, out1) => (inl e, fs1, out1)
      end
  ∧ value_of (add_elements (pre ++ bad :: post) root fs) =
    value_of (add_elements (pre ++ post) root fs).
Proof.
  intros Hbad.
  split; [intros parent fs'; now apply _add_element_tag_missing|].
  assert (Hsplit : ∀ ds, add_elements (pre ++ ds) root fs =
            match add_elements pre root fs with
            | (inr root1, fs1, out1) =>
                let '(v, fs2, out2) := add_elements ds root1 fs1 in
                (v, fs2, out1 ++ out2)
            | (inl e, fs1, out1) => (inl e, fs1, out1)
            end).
  { intros ds. unfold add_elements. apply for_each_app. }
  rewrite !Hsplit.
  destruct (add_elements pre root fs) as [[[e|root1] fs1] out1];
    [split; reflexivity|].
  rewrite add_elements_cons, (_add_element_tag_missing _ _ _ Hbad).
  cbn [fst]. destruct (add_elements post root1 fs1) as [[v fs2] out2].
  split; reflexivity.
Qed.

Lemma missing_tag_skips_only_that_spec_witness :
  tag_missing untagged
  ∧ add_elements [tagged "a"; untagged; tagged "b"]
      (mkElement "root" ∅ None []) sample_fs
    = (inr (mkElement "root" ∅ None [leaf "a" None; leaf "b" None]),
       sample_fs, [MsgTagMissing]).
Proof.
  split; [exact I|].
  destruct (missing_tag_skips_only_that_spec [tagged "a"] untagged
              [tagged "b"] (mkElement "root" ∅ None []) sample_fs I)
    as (_ & Hrun & _).
  cbn [app] in Hrun. rewrite Hrun. vm_compute. reflexivity.
Defined.

(** C7.  When [_add_element] creates an element, the text of the element
    is the value of the [text] key: it is set exactly when the key is
    present with a value other than [None] (the empty string included), and
    the element has no text when the key is absent or bound to [None]. *)
Theorem text_set_iff_present parent d fs parent' element fs' out :
  _add_element parent d fs = (inr (parent', Some element), fs', out) →
  (∀ t, text element = Some t ↔ s_text d = Val t)
  ∧ (text element = None ↔ s_text d = Absent ∨ s_text d = IsNone)
  ∧ last (children parent') = Some element.
Proof.
  rewrite _add_element_run. intros H.
  destruct (get (s_tag d)) as [name|]; [|discriminate].
  destruct (String.eqb name ""); [discriminate|].
  destruct (get_default (s_attributes d) ∅) as [attributes|]; [|discriminate].
  destruct (get_default (s_children d) []) as [ds|]; [|discriminate].
  destruct (add_elements ds _ fs) as [[[e|element'] fs1] out1] eqn:Hloop;
    [discriminate|].
  injection H as <- <- _ _.
  apply add_elements_node in Hloop as (_ & _ & Hx).
  destruct (new_element_node name attributes (get (s_text d)))
    as (_ & _ & Hnew & _).
  rewrite Hx, Hnew. cbn [children attach].
  split; [|split; [|apply last_snoc]].
  - intros t. destruct (s_text d); cbn [get]; split; congruence.
  - destruct (s_text d); cbn [get]; split; try tauto; try congruence.
    intros [|]; discriminate.
Qed.

Lemma text_set_iff_present_witness :
  _add_element (leaf "root" None) empty_text sample_fs =
    (inr (mkElement "root" ∅ None [leaf "note" (Some "")],
          Some (leaf "note" (Some ""))), sample_fs, [])
  ∧ text (leaf "note" (Some "")) = Some "".
Proof.
  assert (H : _add_element (leaf "root" None) empty_text sample_fs =
              (inr (mkElement "root" ∅ None [leaf "note" (Some "")],
                    Some (leaf "note" (Some ""))), sample_fs, []))
    by (vm_compute; reflexivity).
  split; [exact H|].
  apply (text_set_iff_present _ _ _ _ _ _ _ H). reflexivity.
Defined.

(** ** The tree builder against the expected tree *)

Lemma new_element_eq t attributes x :
  new_element t attributes x = mkElement t attributes x [].
Proof.
  destruct (new_element_node t attributes x) as (Ht & Ha & Hx & Hc).
  destruct (new_element t attributes x) as [t' a' x' c'].
  cbn in Ht, Ha, Hx, Hc. now subst.
Qed.

Lemma with_children_nil e : with_children e [] = e.
Proof. destruct e. unfold with_children. cbn. now rewrite app_nil_r. Qed.

Lemma with_children_attach root e cs :
  with_children (attach root e) cs = with_children root (e :: cs).
Proof.
  unfold with_children, attach. cbn [tag attrib text children].
  now rewrite <- app_assoc.
Qed.

Lemma add_elements_outcome ds :
  Forall builder_outcome ds →
  ∀ root fs,
    (forallb builds ds = true →
     add_elements ds root fs =
     (inr (with_children root (omap build ds)), fs,
      replicate (list_sum (map skipped ds)) MsgTagMissing))
    ∧ (forallb builds ds = false →
       ∃ e out, add_elements ds root fs = (inl e, fs, out)
                ∧ (e = AttributeError ∨ e = TypeError)).
Proof.
  induction 1 as [|d ds Hd _ IH]; intros root fs.
  - split; [|discriminate]. intros _. cbn. now rewrite with_children_nil.
  - rewrite add_elements_cons. cbn [forallb map list_sum].
    destruct (Hd root fs) as (Hok & Hko).
    destruct (builds d).
    + rewrite (Hok eq_refl). cbn [fst andb].
      set (root1 := match build d with Some e => attach root e | None => root end).
      destruct (IH root1 fs) as (IHok & IHko).
      assert (Hshape : with_children root1 (omap build ds) =
                       with_children root (omap build (d :: ds))).
      { subst root1. cbn [omap list_omap]. destruct (build d) as [e|];
          [apply with_children_attach | reflexivity]. }
      split.
      * intros Hall. rewrite (IHok Hall), Hshape.
        change (list_sum (skipped d :: map skipped ds))
          with (skipped d + list_sum (map skipped ds)).
        now rewrite replicate_add.
      * intros Hall. destruct (IHko Hall) as (e & out & -> & He).
        eauto.
    + split; [discriminate|]. intros _.
      destruct (Hko eq_refl) as (e & out & -> & He). eauto.
Qed.

Lemma _add_element_outcome d : builder_outcome d.
Proof.
  induction d as [t a x c IH] using ElementSpec_nested_ind.
  intros parent fs. rewrite _add_element_run.
  cbn [build builds skipped s_tag s_attributes s_text s_children].
  destruct (get t) as [name|]; [|split; [reflexivity | discriminate]].
  destruct (String.eqb name ""); [split; [reflexivity | discriminate]|].
  destruct a as [| |attributes]; cbn [get get_default default].
  2:{ split; [discriminate|]. intros _. eauto. }
  all: destruct c as [| |ds]; cbn [get_default].
  all: try (split; [discriminate|]; intros _; eauto).
  all: try (split; [|discriminate]; intros _; cbn;
            now rewrite new_element_eq).
  all: rewrite new_element_eq.
  all: match goal with
       | H : Forall _ ?l |- context [add_elements ?l ?e ?f] =>
           destruct (add_elements_outcome l H e f) as (Hok & Hko)
       end.
  all: split;
    [intros Hall; rewrite (Hok Hall); reflexivity
    |intros Hall; destruct (Hko Hall) as (e & out & -> & He); eauto].
Qed.

Lemma all_builder_outcome ds : Forall builder_outcome ds.
Proof. apply Forall_forall. intros d _. apply _add_element_outcome. Qed.

(** ** The document writer *)

Lemma write_file_ok path data fs :
  writable fs path →
  write_file path data fs =
  (inr (), mkFS (<[path := data]> (files fs)) (dirs fs) (denied fs), []).
Proof.
  intros (Hden & Hdir). unfold write_file.
  now rewrite !decide_False by assumption.
Qed.

Lemma write_file_refused path data fs :
  ¬ writable fs path → ∃ e, write_file path data fs = (inl e, fs, []).
Proof.
  intros Hw. unfold write_file.
  destruct (decide (path ∈ denied fs)); [eauto|].
  destruct (decide (path ∈ dirs fs)); [eauto|].
  exfalso. apply Hw. now split.
Qed.

Section Writer.

Variable ET_tostring : Element → list byte.

(** The three ways out of [tree.write]. *)
Lemma tree_write_ok root filename fs :
  writable fs filename → qnames_ok root = true →
  tree_write ET_tostring root filename fs = (inr (), written ET_tostring filename root fs, []).
Proof.
  intros (Hden & Hdir) Hq. unfold tree_write, write_file, append_file.
  io_unfold. rewrite !decide_False by assumption. rewrite Hq.
  cbn [files dirs denied app]. unfold written, xml_file.
  rewrite !lookup_insert_eq, !insert_insert_eq. reflexivity.
Qed.

Lemma tree_write_bad_name root filename fs :
  writable fs filename → qnames_ok root = false →
  tree_write ET_tostring root filename fs =
  (inl ValueError, truncated filename fs, []).
Proof.
  intros (Hden & Hdir) Hq. unfold tree_write, write_file, append_file.
  io_unfold. rewrite !decide_False by assumption. rewrite Hq.
  cbn [files dirs denied app]. unfold truncated.
  rewrite !lookup_insert_eq, !insert_insert_eq. reflexivity.
Qed.

Lemma tree_write_refused root filename fs :
  ¬ writable fs filename →
  ∃ e, tree_write ET_tostring root filename fs = (inl e, fs, []).
Proof.
  intros Hw. unfold tree_write. rewrite bind_run.
  destruct (write_file_refused filename [] fs Hw) as [e ->]. eauto.
Qed.

(** The builder followed by the write, and the two ways out. *)
Lemma create_xml_file_run filename root_name elements_data fs :
  create_xml_file ET_tostring filename root_name elements_data fs =
  let ds := match elements_data with
            | None => [mkSpec (Val "element") Absent Absent Absent]
            | Some ds => ds
            end in
  match add_elements ds (mkElement root_name ∅ None []) fs with
  | (inl e, fs1, out1) => (inr (PyBool false), fs1, out1 ++ [MsgXmlError e])
  | (inr root, fs1, out1) =>
      match tree_write ET_tostring root filename fs1 with
      | (inl e, fs2, _) => (inr (PyBool false), fs2, out1 ++ [MsgXmlError e])
      | (inr _, fs2, _) =>
          (inr (PyBool true), fs2, out1 ++ [MsgXmlCreated filename])
      end
  end.
Proof.
  unfold create_xml_file. cbn zeta. unfold try_except. rewrite bind_run.
  destruct (add_elements _ _ fs) as [[[e|root] fs1] out1]; [reflexivity|].
  rewrite bind_run.
  destruct (decide (writable fs1 filename)) as [Hw|Hw].
  - destruct (qnames_ok root) eqn:Hq.
    + rewrite (tree_write_ok _ _ _ Hw Hq). io_unfold. cbn. reflexivity.
    + rewrite (tree_write_bad_name _ _ _ Hw Hq). io_unfold. cbn.
      now rewrite app_nil_r.
  - destruct (tree_write_refused root filename fs1 Hw) as [e ->].
    io_unfold. cbn. now rewrite app_nil_r.
Qed.

(** [create_xml_file] on descriptions that build. *)
Lemma create_xml_file_builds filename root_name ds fs :
  forallb builds ds = true →
  create_xml_file ET_tostring filename root_name (Some ds) fs =
  let root := mkElement root_name ∅ None (omap build ds) in
  let out := replicate (list_sum (map skipped ds)) MsgTagMissing in
  match tree_write ET_tostring root filename fs with
  | (inl e, fs2, _) => (inr (PyBool false), fs2, out ++ [MsgXmlError e])
  | (inr _, fs2, _) => (inr (PyBool true), fs2, out ++ [MsgXmlCreated filename])
  end.
Proof.
  intros Hall. rewrite create_xml_file_run. cbn zeta.
  rewrite (proj1 (add_elements_outcome ds (all_builder_outcome ds) _ fs) Hall).
  reflexivity.
Qed.

(** [create_xml_file] on descriptions that do not build. *)
Lemma create_xml_file_raises filename root_name ds fs :
  forallb builds ds = false →
  ∃ e out,
    create_xml_file ET_tostring filename root_name (Some ds) fs =
    (inr (PyBool false), fs, out ++ [MsgXmlError e]).
Proof.
  intros Hall. rewrite create_xml_file_run. cbn zeta.
  destruct (proj2 (add_elements_outcome ds (all_builder_outcome ds)
                     (mkElement root_name ∅ None []) fs) Hall)
    as (e & out & -> & _).
  eauto.
Qed.

(** C8.  [create_xml_file] never raises: it returns [True] or [False].
    It returns [True] exactly when the descriptions build, the names of the
    tree pass the serializer and the file system accepts the file; the file
    then holds the whole document and the success message was printed last.
    In every other case it returns [False] with the error message printed
    last: the file system is unchanged when the descriptions do not build
    or the file cannot be opened, and when the serializer raises after the
    file was opened, the file is left with the declaration alone. *)
Theorem create_xml_file_returns_bool filename root_name elements_data fs :
  let r := create_xml_file ET_tostring filename root_name elements_data fs in
  let ds := match elements_data with
            | None => [mkSpec (Val "element") Absent Absent Absent]
            | Some ds => ds
            end in
  let root := mkElement root_name ∅ None (omap build ds) in
  ∃ b : bool,
    value_of r = inr (PyBool b)
    ∧ (b = true ↔
       forallb builds ds = true ∧ qnames_ok root = true
       ∧ writable fs filename)
    ∧ (b = true →
       fs_of r = written ET_tostring filename root fs
       ∧ last (output_of r) = Some (MsgXmlCreated filename))
    ∧ (b = false → ∃ e, last (output_of r) = Some (MsgXmlError e))
    ∧ (forallb builds ds = false ∨ ¬ writable fs filename → fs_of r = fs)
    ∧ (forallb builds ds = true → writable fs filename →
       qnames_ok root = false →
       fs_of r = truncated filename fs
       ∧ last (output_of r) = Some (MsgXmlError ValueError)).
Proof.
  cbn zeta.
  set (ds := match elements_data with None => _ | Some ds => ds end).
  assert (Hsome : create_xml_file ET_tostring filename root_name elements_data fs
                  = create_xml_file ET_tostring filename root_name (Some ds) fs)
    by (subst ds; now destruct elements_data).
  rewrite Hsome. clear Hsome.
  destruct (forallb builds ds) eqn:Hall.
  - rewrite (create_xml_file_builds _ _ _ _ Hall). cbn zeta.
    destruct (decide (writable fs filename)) as [Hw|Hw].
    + destruct (qnames_ok (mkElement root_name ∅ None (omap build ds))) eqn:Hq.
      * rewrite (tree_write_ok _ _ _ Hw Hq). exists true.
        unfold value_of, fs_of, output_of. cbn [fst snd].
        rewrite last_snoc.
        split; [reflexivity|]. split; [tauto|]. split; [tauto|].
        split; [discriminate|]. split; [|discriminate].
        intros [H|H]; [discriminate H | contradiction].
      * rewrite (tree_write_bad_name _ _ _ Hw Hq). exists false.
        unfold value_of, fs_of, output_of. cbn [fst snd].
        rewrite last_snoc.
        split; [reflexivity|]. split.
        { split; [discriminate|]. intros (_ & H & _). discriminate H. }
        split; [discriminate|]. split; [eauto|]. split; [|tauto].
        intros [H|H]; [discriminate H | contradiction].
    + destruct (tree_write_refused
                  (mkElement root_name ∅ None (omap build ds)) filename fs Hw)
        as [e ->].
      exists false. unfold value_of, fs_of, output_of. cbn [fst snd].
      rewrite last_snoc.
      split; [reflexivity|]. split; [split; [discriminate | tauto]|].
      split; [discriminate|]. split; [eauto|]. split; [reflexivity|].
      intros _ H. contradiction.
  - destruct (create_xml_file_raises filename root_name ds fs Hall)
      as (e & out & ->).
    exists false. unfold value_of, fs_of, output_of. cbn [fst snd].
    rewrite last_snoc.
    split; [reflexivity|].
    split; [split; [discriminate | intros (H & _); discriminate H]|].
    split; [discriminate|]. split; [eauto|]. split; [reflexivity|].
    intros H. discriminate H.
Qed.

(** C10.  With [elements_data = None] the tree handed to the writer is the
    root with exactly one child named "element", which has no attribute, no
    text and no child: the outcome is that of writing this tree, and when
    the file system accepts the file and the serializer accepts the root
    name, the call returns [True] with the file holding the document. *)
Theorem create_xml_file_default filename root_name fs :
  let document :=
    mkElement root_name ∅ None [mkElement "element" ∅ None []] in
  create_xml_file ET_tostring filename root_name None fs =
  match tree_write ET_tostring document filename fs with
  | (inl e, fs', _) => (inr (PyBool false), fs', [MsgXmlError e])
  | (inr _, fs', _) => (inr (PyBool true), fs', [MsgXmlCreated filename])
  end
  ∧ (writable fs filename → qname_ok root_name = true →
     create_xml_file ET_tostring filename root_name None fs =
     (inr (PyBool true), written ET_tostring filename document fs,
      [MsgXmlCreated filename])).
Proof.
  cbn zeta.
  assert (H : create_xml_file ET_tostring filename root_name None fs =
              match tree_write ET_tostring
                      (mkElement root_name ∅ None
                         [mkElement "element" ∅ None []]) filename fs with
              | (inl e, fs', _) => (inr (PyBool false), fs', [MsgXmlError e])
              | (inr _, fs', _) =>
                  (inr (PyBool true), fs', [MsgXmlCreated filename])
              end).
  { rewrite create_xml_file_run. cbn zeta.
    rewrite add_elements_cons, _add_element_run.
    cbn [s_tag s_attributes s_text s_children get get_default String.eqb
         Ascii.eqb Bool.eqb add_elements for_each mret IO_ret fst app].
    reflexivity. }
  split; [exact H|].
  intros Hw Hq. rewrite H, (tree_write_ok _ _ _ Hw); [reflexivity|].
  cbn [qnames_ok]. rewrite Hq. reflexivity.
Qed.

End Writer.

Lemma sample_writable : writable sample_fs "out.xml".
Proof. split; set_solver. Qed.

Lemma create_xml_file_returns_bool_witness :
  forallb builds [tagged "a"; untagged; empty_text] = true
  ∧ writable sample_fs "out.xml"
  ∧ value_of (create_xml_file tags_of "out.xml" "data"
                (Some [tagged "a"; untagged; empty_text]) sample_fs)
    = inr (PyBool true).
Proof.
  split; [reflexivity|]. split; [exact sample_writable|].
  destruct (create_xml_file_returns_bool tags_of "out.xml" "data"
              (Some [tagged "a"; untagged; empty_text]) sample_fs)
    as (b & Hv & Hiff & _).
  rewrite Hv. f_equal. f_equal. apply Hiff.
  split; [reflexivity|]. split; [reflexivity | exact sample_writable].
Defined.

Lemma create_xml_file_default_witness :
  writable sample_fs "out.xml"
  ∧ qname_ok "root" = true
  ∧ create_xml_file tags_of "out.xml" "root" None sample_fs =
    (inr (PyBool true),
     mkFS (<["out.xml" :=
               xml_declaration ++ list_byte_of_string "rootelement"]>
             (files sample_fs)) ∅ ∅,
     [MsgXmlCreated "out.xml"]).
Proof.
  split; [exact sample_writable|]. split; [reflexivity|].
  exact (proj2 (create_xml_file_default tags_of "out.xml" "root" sample_fs)
           sample_writable eq_refl).
Defined.

(** The ways out of [create_xml_file] on the code. *)
Example create_xml_file_written :
  create_xml_file tags_of "out.xml" "data"
    (Some [tagged "a"; untagged; empty_text]) sample_fs
  = (inr (PyBool true),
     mkFS (<["out.xml" := xml_declaration ++ list_byte_of_string "dataanote"]>
             (files sample_fs)) ∅ ∅,
     [MsgTagMissing; MsgXmlCreated "out.xml"]).
Proof. vm_compute. reflexivity. Qed.

Example create_xml_file_refused :
  create_xml_file tags_of "out.xml" "data" (Some [tagged "a"])
    (mkFS ∅ ∅ {["out.xml"]})
  = (inr (PyBool false), mkFS ∅ ∅ {["out.xml"]},
     [MsgXmlError PermissionError]).
Proof. vm_compute. reflexivity. Qed.

Example create_xml_file_attributes_None :
  create_xml_file tags_of "out.xml" "data"
    (Some [mkSpec (Val "a") IsNone Absent Absent]) sample_fs
  = (inr (PyBool false), sample_fs, [MsgXmlError AttributeError]).
Proof. vm_compute. reflexivity. Qed.

Example create_xml_file_bad_root_name :
  create_xml_file tags_of "image.xml" "{abc" None sample_fs
  = (inr (PyBool false),
     mkFS (<["image.xml" := xml_declaration]> (files sample_fs)) ∅ ∅,
     [MsgXmlError ValueError]).
Proof. vm_compute. reflexivity. Qed.

(** ** What the payload writer returns *)

(** C9, as stated, fails: a call that decodes its input and writes the file
    returns [None], not the path of the file, and a call that fails to decode
    returns the very same value. *)
Lemma save_base64_to_image_returns_no_path :
  let ok := save_base64_to_image "QUJD" "a.jpg" sample_fs in
  let ko := save_base64_to_image "QUJDR" "a.jpg" sample_fs in
  files (fs_of ok) !! "extracted_images/a.jpg"
    = Some ["A"%byte; "B"%byte; "C"%byte]
  ∧ value_of ok ≠ inr (PyStr "extracted_images/a.jpg")
  ∧ output_of ko = [MsgDecodeError BinasciiError]
  ∧ value_of ko = value_of ok.
Proof. vm_compute. repeat split; try reflexivity. discriminate. Qed.

(** C9, amended.  [save_base64_to_image] returns [None] on every call and
    never raises.  When the text decodes and the file system allows it, the
    decoded bytes are in the file at the output folder joined with the file
    name, and that path is printed in the success message; when the text does
    not decode, no file is written and one diagnostic is printed. *)
Theorem save_base64_to_image_returns_None s name fs :
  let r := save_base64_to_image s name fs in
  value_of r = inr PyNone
  ∧ (∀ data,
       storable fs (output_path name) → Base64.b64decode s = inr data →
       files (fs_of r) !! output_path name = Some data
       ∧ output_of r = [MsgImageSaved (output_path name)])
  ∧ (∀ e,
       Base64.b64decode s = inl e →
       files (fs_of r) = files fs
       ∧ (output_of r = [MsgDecodeError e] ∨ ∃ e', output_of r = [MsgSaveError e'])).
Proof.
  cbn zeta. split; [apply save_value|]. split.
  - intros data Hs Hdec. rewrite (save_stores _ _ _ _ Hs Hdec).
    unfold fs_of, output_of. cbn [fst snd files].
    split; [apply lookup_insert_eq | reflexivity].
  - intros e Hdec. rewrite save_run, Hdec. unfold os_makedirs.
    destruct (decide (_ ∈ denied fs)); [cbn; eauto|].
    destruct (files fs !! "extracted_images"); [cbn; eauto|].
    destruct e; cbn; eauto.
Qed.

Lemma save_base64_to_image_returns_None_witness :
  storable sample_fs (output_path "a.jpg")
  ∧ Base64.b64decode "QUJD" = inr ["A"%byte; "B"%byte; "C"%byte]
  ∧ files (fs_of (save_base64_to_image "QUJD" "a.jpg" sample_fs))
      !! output_path "a.jpg" = Some ["A"%byte; "B"%byte; "C"%byte].
Proof.
  assert (Hs : storable sample_fs (output_path "a.jpg"))
    by (repeat split; set_solver).
  split; [exact Hs|]. split; [reflexivity|].
  destruct (save_base64_to_image_returns_None "QUJD" "a.jpg" sample_fs)
    as (_ & Hok & _).
  exact (proj1 (Hok _ Hs eq_refl)).
Defined.

(** ** From the image file to the extracted file *)

Lemma encode_image_to_base64_reads image_path fs B :
  image_path ∉ denied fs → image_path ∉ dirs fs →
  files fs !! image_path = Some B →
  encode_image_to_base64 image_path fs =
  (inr (PyStr (Base64.b64encode B)), fs, []).
Proof.
  intros Hden Hdir Hfile. unfold encode_image_to_base64, read_file. io_unfold.
  now rewrite !decide_False, Hfile by assumption.
Qed.

Lemma encode_image_to_base64_not_found image_path fs :
  image_path ∉ denied fs → image_path ∉ dirs fs →
  files fs !! image_path = None →
  encode_image_to_base64 image_path fs =
  (inr PyNone, fs, [MsgImageNotFound image_path]).
Proof.
  intros Hden Hdir Hfile. unfold encode_image_to_base64, read_file. io_unfold.
  now rewrite !decide_False, Hfile by assumption.
Qed.

(** X6.  The text produced from an image file, handed to the payload writer,
    gives back the bytes of the image. *)
Lemma image_round_trip image_path name fs B :
  image_path ∉ denied fs → image_path ∉ dirs fs →
  files fs !! image_path = Some B →
  storable fs (output_path name) →
  ∃ s, value_of (encode_image_to_base64 image_path fs) = inr (PyStr s)
       ∧ files (fs_of (save_base64_to_image s name fs)) !! output_path name
         = Some B.
Proof.
  intros Hden Hdir Hfile Hs. exists (Base64.b64encode B).
  rewrite (encode_image_to_base64_reads _ _ _ Hden Hdir Hfile).
  split; [reflexivity|].
  assert (Hdec : Base64.b64decode (Base64.b64encode B) = inr B).
  { unfold Base64.b64decode. rewrite Base64Facts.all_ascii_b64encode.
    apply (Base64Facts.a2b_b64encode B []). }
  rewrite (save_stores _ _ _ _ Hs Hdec). cbn [fs_of fst snd files].
  apply lookup_insert_eq.
Qed.

(** * Further properties of the program *)

(** ** The tree the builder produces *)

(** X1.  When no description that is reached binds [attributes] or
    [children] to [None], the loop of lines 93-94 does not raise, leaves the
    file system alone, prints one diagnostic per description skipped for
    want of a tag, and appends to the children of the root the elements of
    the descriptions, in order: same tags, attributes, text and children,
    the skipped subtrees absent. *)
Theorem add_elements_builds ds root fs :
  forallb builds ds = true →
  add_elements ds root fs =
  (inr (with_children root (omap build ds)), fs,
   replicate (list_sum (map skipped ds)) MsgTagMissing).
Proof.
  intros Hall.
  exact (proj1 (add_elements_outcome ds (all_builder_outcome ds) root fs) Hall).
Qed.

Lemma add_elements_builds_witness :
  forallb builds [tagged "a"; untagged; empty_text] = true
  ∧ add_elements [tagged "a"; untagged; empty_text] (leaf "root" None)
      sample_fs
    = (inr (mkElement "root" ∅ None [leaf "a" None; leaf "note" (Some "")]),
       sample_fs, [MsgTagMissing]).
Proof.
  split; [reflexivity|].
  exact (add_elements_builds [tagged "a"; untagged; empty_text]
           (leaf "root" None) sample_fs eq_refl).
Defined.

Section WriterExtra.

Variable ET_tostring : Element → list byte.

(** X2.  For a list of descriptions, [create_xml_file] returns [True]
    exactly when no reached description binds [attributes] or [children] to
    [None], every tag, attribute key and the root name pass the serializer,
    and the file system accepts the file; in every other case it returns
    [False]. *)
Theorem create_xml_file_true_iff filename root_name ds fs :
  let r := create_xml_file ET_tostring filename root_name (Some ds) fs in
  let root := mkElement root_name ∅ None (omap build ds) in
  (value_of r = inr (PyBool true) ↔
   forallb builds ds = true ∧ qnames_ok root = true ∧ writable fs filename)
  ∧ (value_of r = inr (PyBool false) ↔
     ¬ (forallb builds ds = true ∧ qnames_ok root = true
        ∧ writable fs filename)).
Proof.
  cbn zeta. destruct (forallb builds ds) eqn:Hall.
  - rewrite (create_xml_file_builds _ _ _ _ _ Hall). cbn zeta.
    destruct (decide (writable fs filename)) as [Hw|Hw].
    + destruct (qnames_ok (mkElement root_name ∅ None (omap build ds))) eqn:Hq.
      * rewrite (tree_write_ok _ _ _ _ Hw Hq). unfold value_of. cbn [fst].
        split; split; try tauto; try discriminate.
      * rewrite (tree_write_bad_name _ _ _ _ Hw Hq). unfold value_of.
        cbn [fst]. split; split; try tauto; try discriminate.
        -- intros (_ & H & _). discriminate H.
        -- intros _ (_ & H & _). discriminate H.
    + destruct (tree_write_refused ET_tostring
                  (mkElement root_name ∅ None (omap build ds)) filename fs Hw)
        as [e ->].
      unfold value_of. cbn [fst]. split; split; try tauto; try discriminate.
  - destruct (create_xml_file_raises ET_tostring filename root_name ds fs Hall)
      as (e & out & ->).
    unfold value_of. cbn [fst]. split; split; try discriminate; try tauto.
    + intros (H & _). discriminate H.
    + intros _ (H & _). discriminate H.
Qed.

(** X3.  When the descriptions build, the names pass the serializer and the
    file system accepts the file, [create_xml_file] leaves in the file the
    declaration followed by the serialization of the root named [root_name],
    without attribute or text, whose children are the elements of the
    descriptions; it prints the diagnostics of the skipped descriptions,
    then the success message, and returns [True]. *)
Theorem create_xml_file_writes_build filename root_name ds fs :
  forallb builds ds = true →
  qnames_ok (mkElement root_name ∅ None (omap build ds)) = true →
  writable fs filename →
  create_xml_file ET_tostring filename root_name (Some ds) fs =
  (inr (PyBool true),
   mkFS (<[filename :=
             xml_declaration
             ++ ET_tostring (mkElement root_name ∅ None (omap build ds))]>
           (files fs)) (dirs fs) (denied fs),
   replicate (list_sum (map skipped ds)) MsgTagMissing
   ++ [MsgXmlCreated filename]).
Proof.
  intros Hall Hq Hw. rewrite (create_xml_file_builds _ _ _ _ _ Hall).
  cbn zeta. now rewrite (tree_write_ok _ _ _ _ Hw Hq).
Qed.

(** X17.  A tag, an attribute key or a root name that opens a namespace
    with "{" and never closes it makes the serializer raise once the file
    is open: [create_xml_file] returns [False], but what the file held
    before is lost, the declaration alone being left in it. *)
Theorem create_xml_file_bad_name_truncates filename root_name ds fs :
  forallb builds ds = true →
  qnames_ok (mkElement root_name ∅ None (omap build ds)) = false →
  writable fs filename →
  create_xml_file ET_tostring filename root_name (Some ds) fs =
  (inr (PyBool false),
   mkFS (<[filename := xml_declaration]> (files fs)) (dirs fs) (denied fs),
   replicate (list_sum (map skipped ds)) MsgTagMissing
   ++ [MsgXmlError ValueError]).
Proof.
  intros Hall Hq Hw. rewrite (create_xml_file_builds _ _ _ _ _ Hall).
  cbn zeta. now rewrite (tree_write_bad_name _ _ _ _ Hw Hq).
Qed.

End WriterExtra.

Lemma create_xml_file_writes_build_witness :
  forallb builds [tagged "a"; untagged; empty_text] = true
  ∧ writable sample_fs "out.xml"
  ∧ files (fs_of (create_xml_file tags_of "out.xml" "data"
                    (Some [tagged "a"; untagged; empty_text]) sample_fs))
      !! "out.xml"
    = Some (xml_declaration ++ list_byte_of_string "dataanote").
Proof.
  split; [reflexivity|]. split; [exact sample_writable|].
  rewrite (create_xml_file_writes_build tags_of "out.xml" "data"
             [tagged "a"; untagged; empty_text] sample_fs eq_refl eq_refl
             sample_writable).
  vm_compute. reflexivity.
Defined.

Lemma create_xml_file_bad_name_truncates_witness :
  files sample_fs !! "image.xml" = Some []
  ∧ qnames_ok (mkElement "root" ∅ None (omap build [tagged "{abc"])) = false
  ∧ create_xml_file tags_of "image.xml" "root" (Some [tagged "{abc"])
      sample_fs
    = (inr (PyBool false),
       mkFS (<["image.xml" := xml_declaration]> (files sample_fs)) ∅ ∅,
       [MsgXmlError ValueError]).
Proof.
  split; [reflexivity|]. split; [reflexivity|].
  apply (create_xml_file_bad_name_truncates tags_of "image.xml" "root"
           [tagged "{abc"] sample_fs); [reflexivity | reflexivity |].
  split; set_solver.
Defined.

(** ** The image reader *)

(** X4.  [encode_image_to_base64] never raises and never changes the file
    system.  It returns the base64 text of the file exactly when the file
    can be read, printing nothing; otherwise it returns [None] and prints
    one line, the "not found" line exactly when the path is neither refused
    nor a directory and no file is there. *)
Theorem encode_image_to_base64_outcome image_path fs :
  let r := encode_image_to_base64 image_path fs in
  let readable := (image_path ∉ denied fs) ∧ (image_path ∉ dirs fs) in
  fs_of r = fs
  ∧ (∀ s, value_of r = inr (PyStr s) ↔
          readable
          ∧ ∃ B, files fs !! image_path = Some B ∧ s = Base64.b64encode B)
  ∧ (value_of r = inr PyNone ↔
     ¬ (readable ∧ ∃ B, files fs !! image_path = Some B))
  ∧ (output_of r = [MsgImageNotFound image_path] ↔
     readable ∧ files fs !! image_path = None)
  ∧ (output_of r = [] ↔ ∃ s, value_of r = inr (PyStr s)).
Proof.
  cbn zeta. unfold encode_image_to_base64, read_file. io_unfold.
  destruct (decide (image_path ∈ denied fs)) as [Hden|Hden];
    [cbn; repeat split; naive_solver|].
  destruct (decide (image_path ∈ dirs fs)) as [Hdir|Hdir];
    [cbn; repeat split; naive_solver|].
  destruct (files fs !! image_path) as [B|] eqn:Hfile; cbn;
    repeat split; naive_solver.
Qed.

Lemma image_round_trip_witness :
  files image_fs !! "scenery.png" = Some ["A"%byte; "B"%byte; "C"%byte]
  ∧ ∃ s, value_of (encode_image_to_base64 "scenery.png" image_fs)
         = inr (PyStr s)
         ∧ files (fs_of (save_base64_to_image s "copy.png" image_fs))
             !! "extracted_images/copy.png"
           = Some ["A"%byte; "B"%byte; "C"%byte].
Proof.
  split; [reflexivity|].
  apply (image_round_trip "scenery.png" "copy.png" image_fs).
  - set_solver.
  - set_solver.
  - reflexivity.
  - repeat split; set_solver.
Defined.

(** ** How long the text of an image is *)

Lemma b64encode_length (B : list byte) :
  String.length (Base64.b64encode B) = 4 * ((length B + 2) / 3).
Proof.
  induction B as [|b0|b0 b1|b0 b1 b2 rest IH] using Base64Facts.list_ind3;
    try reflexivity.
  cbn [Base64.b64encode String.length length]. rewrite IH.
  replace (S (S (S (length rest))) + 2) with (length rest + 2 + 1 * 3) by lia.
  rewrite Nat.div_add by lia. lia.
Qed.




(** ** More on the scanner *)

Lemma save_decode_failure_files s name fs e :
  Base64.b64decode s = inl e →
  files (fs_of (save_base64_to_image s name fs)) = files fs.
Proof.
  intros Hdec. rewrite save_run, Hdec. unfold os_makedirs, fs_of.
  destruct (decide (_ ∈ denied fs)); [reflexivity|].
  destruct (files fs !! "extracted_images"); [reflexivity|].
  now destruct e.
Qed.

Lemma store_all_denied ps (i : nat) fs :
  denied (store_all ps i fs) = denied fs.
Proof.
  revert i fs. induction ps as [|p ps IH]; intros i fs; [reflexivity|].
  cbn [store_all]. now rewrite IH, save_denied.
Qed.

Lemma store_all_files_frame ps (i : nat) fs p :
  (∀ j : nat, (i ≤ j < i + length ps)%nat → p ≠ output_path (image_name j)) →
  files (store_all ps i fs) !! p = files fs !! p.
Proof.
  revert i fs. induction ps as [|q ps IH]; intros i fs Hp; [reflexivity|].
  cbn [store_all length] in *.
  rewrite IH by (intros j Hj; apply Hp; lia).
  apply save_files_other, Hp. lia.
Qed.

Lemma payloads_scanned_texts es1 es2 :
  map text es1 = map text es2 →
  payloads (scanned es1) = payloads (scanned es2).
Proof.
  revert es2. induction es1 as [|e1 es1 IH]; intros [|e2 es2] H;
    try discriminate; [reflexivity|].
  injection H as He H. cbn [scanned]. unfold has_text. rewrite <- He.
  destruct (text e1) as [t|] eqn:Ht; [|reflexivity].
  rewrite !payloads_cons. unfold payload. rewrite <- He, Ht.
  now rewrite (IH _ H).
Qed.

Section ExtractionExtra.

Variable ET_fromstring : list byte → option Element.

Lemma ET_parse_run xml_file_path fs :
  ∃ v, ET_parse ET_fromstring xml_file_path fs = (v, fs, []).
Proof.
  unfold ET_parse, read_file. io_unfold.
  repeat (case_decide || case_match); simplify_eq; eauto.
Qed.

(** X7.  [convert_xml_images] never raises and returns [None], whatever
    the path and the file system, and it never changes which paths are
    refused.  When the file cannot be read or is not well-formed XML, the
    file system is left as it is and the only line printed is the
    exception. *)
Theorem convert_xml_images_never_raises xml_file_path fs :
  let r := convert_xml_images ET_fromstring xml_file_path fs in
  value_of r = inr PyNone
  ∧ denied (fs_of r) = denied fs
  ∧ (∀ e, value_of (ET_parse ET_fromstring xml_file_path fs) = inl e →
          r = (inr PyNone, fs, [MsgException e])).
Proof.
  cbn zeta. destruct (ET_parse_run xml_file_path fs) as [[e|root] Hparse].
  - assert (Hrun : convert_xml_images ET_fromstring xml_file_path fs =
                   (inr PyNone, fs, [MsgException e])).
    { unfold convert_xml_images. io_unfold. now rewrite Hparse. }
    rewrite Hrun, Hparse. unfold value_of, fs_of. cbn [fst snd].
    split; [reflexivity|]. split; [reflexivity|]. now intros e' [= <-].
  - destruct (convert_run _ _ _ _ Hparse) as (Hv & Hfs & _).
    split; [exact Hv|]. split.
    + rewrite Hfs. apply store_all_denied.
    + rewrite Hparse. intros e H. discriminate H.
Qed.

End ExtractionExtra.

Lemma convert_xml_images_never_raises_witness :
  value_of (ET_parse (parses_to sample_document) "missing.xml" sample_fs)
    = inl FileNotFoundError
  ∧ convert_xml_images (parses_to sample_document) "missing.xml" sample_fs
    = (inr PyNone, sample_fs, [MsgException FileNotFoundError]).
Proof.
  split; [reflexivity|].
  apply (convert_xml_images_never_raises (parses_to sample_document)
           "missing.xml" sample_fs).
  reflexivity.
Defined.

Section ExtractionMore.

Variable ET_fromstring : list byte → option Element.

(** X8.  The scanner looks at the text of the depth-2 elements and at
    nothing else: two documents whose depth-2 elements carry the same texts
    in the same order lead to the same file system and the same announced
    indices, whatever their tags, attributes, text at depth 1 and elements
    below depth 2. *)
Theorem scan_depends_on_depth2_texts path1 path2 fs root1 root2 :
  ET_parse ET_fromstring path1 fs = (inr root1, fs, []) →
  ET_parse ET_fromstring path2 fs = (inr root2, fs, []) →
  map text (depth2 root1) = map text (depth2 root2) →
  let r1 := convert_xml_images ET_fromstring path1 fs in
  let r2 := convert_xml_images ET_fromstring path2 fs in
  fs_of r1 = fs_of r2 ∧ downloads (output_of r1) = downloads (output_of r2).
Proof.
  intros H1 H2 Htexts. cbn zeta.
  destruct (convert_run _ _ _ _ H1) as (_ & -> & -> & _).
  destruct (convert_run _ _ _ _ H2) as (_ & -> & -> & _).
  now rewrite (payloads_scanned_texts _ _ Htexts).
Qed.

(** X9.  A scan writes nowhere but under the names
    extracted_images/extracted_image{i}.jpg of the indices it hands out:
    every other path holds after the scan what it held before. *)
Theorem scan_frame xml_file_path fs root p :
  ET_parse ET_fromstring xml_file_path fs = (inr root, fs, []) →
  (∀ i : nat, (i < length (payloads (scanned (depth2 root))))%nat →
              p ≠ output_path (image_name i)) →
  files (fs_of (convert_xml_images ET_fromstring xml_file_path fs)) !! p
  = files fs !! p.
Proof.
  intros Hparse Hp.
  destruct (convert_run _ _ _ _ Hparse) as (_ & -> & _).
  apply store_all_files_frame. intros j Hj. apply Hp. lia.
Qed.

(** The file system just before the payload of index [i] is handled, and
    the file of that index at the end of the scan. *)
Lemma store_all_at ps (i : nat) t fs :
  ps !! i = Some t →
  ∃ fs1,
    (∀ p, p ≠ "extracted_images" → storable fs p → storable fs1 p)
    ∧ files fs1 !! output_path (image_name i)
      = files fs !! output_path (image_name i)
    ∧ files (store_all ps 0 fs) !! output_path (image_name i)
      = files (fs_of (save_base64_to_image t (image_name i) fs1))
          !! output_path (image_name i).
Proof.
  intros Hi. apply list_elem_of_split_length in Hi as (l1 & l2 & -> & ->).
  exists (store_all l1 0 fs). split; [|split].
  - intros p Hp Hs. now apply storable_store_all.
  - apply store_all_files_frame. intros j Hj E.
    apply output_path_inj in E. lia.
  - rewrite store_all_app. cbn [store_all Nat.add].
    apply store_all_files_other. intros j Hj E.
    apply output_path_inj in E. lia.
Qed.

(** X10.  Every scanned payload that decodes ends up in the file of its
    own index, when the file system accepts that file: no payload handled
    before or after it overwrites it. *)
Theorem scanned_payload_stored xml_file_path fs root (i : nat) t data :
  ET_parse ET_fromstring xml_file_path fs = (inr root, fs, []) →
  payloads (scanned (depth2 root)) !! i = Some t →
  Base64.b64decode t = inr data →
  storable fs (output_path (image_name i)) →
  files (fs_of (convert_xml_images ET_fromstring xml_file_path fs))
    !! output_path (image_name i) = Some data.
Proof.
  intros Hparse Hi Hdec Hs.
  destruct (convert_run _ _ _ _ Hparse) as (_ & -> & _).
  destruct (store_all_at _ _ _ fs Hi) as (fs1 & Hkeep & _ & ->).
  rewrite (save_stores _ _ _ _
             (Hkeep _ (output_path_not_folder i) Hs) Hdec).
  cbn [fs_of fst snd files]. apply lookup_insert_eq.
Qed.

(** X11.  A scanned payload that does not decode takes an index but leaves
    no trace in the files: the path of its index holds after the scan what
    it held before. *)
Theorem undecodable_payload_writes_nothing
    xml_file_path fs root (i : nat) t e :
  ET_parse ET_fromstring xml_file_path fs = (inr root, fs, []) →
  payloads (scanned (depth2 root)) !! i = Some t →
  Base64.b64decode t = inl e →
  files (fs_of (convert_xml_images ET_fromstring xml_file_path fs))
    !! output_path (image_name i)
  = files fs !! output_path (image_name i).
Proof.
  intros Hparse Hi Hdec.
  destruct (convert_run _ _ _ _ Hparse) as (_ & -> & _).
  destruct (store_all_at _ _ _ fs Hi) as (fs1 & _ & Hsame & ->).
  now rewrite (save_decode_failure_files _ _ _ _ Hdec).
Qed.

End ExtractionMore.

(** ** The script from end to end *)

Lemma my_xml_data_builds v :
  forallb builds (my_xml_data "scenery.png" v) = true
  ∧ list_sum (map skipped (my_xml_data "scenery.png" v)) = 0
  ∧ mkElement "root" ∅ None (omap build (my_xml_data "scenery.png" v))
    = main_document (fstring v).
Proof. repeat split. Qed.

Section ScriptFacts.

Variable ET_tostring : Element → list byte.
Variable ET_fromstring : list byte → option Element.

(** What the scanner does on the document of the script, once parsed. *)
Lemma convert_main_document s fs :
  ET_parse ET_fromstring "image.xml" fs = (inr (main_document s), fs, []) →
  convert_xml_images ET_fromstring "image.xml" fs =
  let r := save_base64_to_image s (image_name 0) fs in
  (inr PyNone,
   if Nat.ltb 100 (String.length s) then fs_of r else fs,
   [MsgRoot "root";
    MsgLevel1 "root" {["version" := "1.0"; "encoding" := "UTF-8"]};
    MsgLevel2 "image_title" {["id" := "1"; "type" := "image"]};
    MsgLevel2 "image_string" {["id" := "2"; "type" := "binary"]}]
   ++ (if Nat.ltb 100 (String.length s)
       then MsgDownloading 0 :: output_of r else [])
   ++ [MsgLevel2 "end_tag" ∅; MsgException TypeError]).
Proof.
  intros Hparse. unfold convert_xml_images, try_except.
  rewrite bind_run, Hparse. cbv beta iota zeta.
  unfold print at 1. rewrite bind_run. cbv beta iota zeta.
  rewrite bind_run. cbn [main_document children].
  rewrite for_each_cons, scan_level_1_run. cbn [children tag attrib].
  cbv zeta.
  rewrite for_each_cons, scan_level_2_run. cbn [text tag attrib].
  change (Nat.ltb 100 (String.length "scenery.png.")) with false.
  cbv beta iota zeta.
  rewrite for_each_cons, scan_level_2_run. cbn [text tag attrib].
  destruct (Nat.ltb 100 (String.length s)).
  - cbv beta iota zeta.
    rewrite for_each_cons, scan_level_2_run. cbn [text tag attrib].
    io_unfold. cbn. rewrite <- ?app_assoc. reflexivity.
  - rewrite for_each_cons, scan_level_2_run. cbn [text tag attrib].
    io_unfold. cbn. reflexivity.
Qed.

Lemma create_main_document v fs :
  writable fs "image.xml" →
  create_xml_file ET_tostring "image.xml" "root"
    (Some (my_xml_data "scenery.png" v)) fs =
  (inr (PyBool true), after_create ET_tostring (fstring v) fs,
   [MsgXmlCreated "image.xml"]).
Proof.
  intros Hw.
  destruct (my_xml_data_builds v) as (Hall & Hskip & Hdoc).
  rewrite (create_xml_file_builds _ _ _ _ _ Hall). cbn zeta.
  rewrite Hskip, Hdoc, (tree_write_ok _ _ _ _ Hw); reflexivity.
Qed.

Lemma parse_after_create s document fs :
  writable fs "image.xml" →
  ET_fromstring (xml_file ET_tostring (main_document s)) = Some document →
  ET_parse ET_fromstring "image.xml" (after_create ET_tostring s fs) =
  (inr document, after_create ET_tostring s fs, []).
Proof.
  intros (Hden & Hdir) Hinv. unfold ET_parse, read_file, after_create.
  io_unfold. cbn [denied dirs files].
  rewrite !decide_False by assumption.
  now rewrite lookup_insert_eq, Hinv.
Qed.

Lemma storable_after_create s fs p :
  storable fs p → storable (after_create ET_tostring s fs) p.
Proof.
  intros (Hfolder & Hfile & Hden & Hdir). unfold storable, after_create.
  cbn [denied dirs files]. repeat split; try assumption.
  now rewrite lookup_insert_ne.
Qed.

(** X13.  The script on an image of more than 75 bytes, when the file
    system accepts its files and the parser gives back the tree that was
    serialized: it writes image.xml, extracts the image to
    extracted_images/extracted_image0.jpg with the bytes of scenery.png,
    and then stops on the <end_tag/> it wrote itself, the last line printed
    being the [TypeError] of [len(None)]. *)
Theorem main_extracts_the_image fs B :
  let s := Base64.b64encode B in
  ("scenery.png" ∉ denied fs) → ("scenery.png" ∉ dirs fs) →
  files fs !! "scenery.png" = Some B →
  (75 < length B)%nat →
  writable fs "image.xml" →
  storable fs "extracted_images/extracted_image0.jpg" →
  ET_fromstring (xml_file ET_tostring (main_document s))
    = Some (main_document s) →
  main ET_tostring ET_fromstring fs =
  (inr (),
   mkFS (<["extracted_images/extracted_image0.jpg" := B]>
           (<["image.xml" := xml_file ET_tostring (main_document s)]> (files fs)))
        ({["extracted_images"]} ∪ dirs fs) (denied fs),
   [Printed (MsgXmlCreated "image.xml");
    MsgMainCreated;
    Printed (MsgRoot "root");
    Printed (MsgLevel1 "root" {["version" := "1.0"; "encoding" := "UTF-8"]});
    Printed (MsgLevel2 "image_title" {["id" := "1"; "type" := "image"]});
    Printed (MsgLevel2 "image_string" {["id" := "2"; "type" := "binary"]});
    Printed (MsgDownloading 0);
    Printed (MsgImageSaved "extracted_images/extracted_image0.jpg");
    Printed (MsgLevel2 "end_tag" ∅);
    Printed (MsgException TypeError)]).
Proof.
  intros s Hden Hdir Hfile Hlen Hw Hs Hinv. unfold main. cbv zeta.
  rewrite (encode_image_to_base64_reads _ _ _ Hden Hdir Hfile).
  rewrite (create_main_document _ _ Hw). cbn [truthy fstring]. fold s.
  rewrite (convert_main_document _ _ (parse_after_create _ _ _ Hw Hinv)).
  cbv zeta.
  assert (Hpayload : Nat.ltb 100 (String.length s) = true).
  { apply Nat.ltb_lt. subst s. rewrite b64encode_length.
    pose proof (Nat.div_mod_eq (length B + 2) 3).
    pose proof (Nat.mod_upper_bound (length B + 2) 3 ltac:(lia)). lia. }
  rewrite Hpayload.
  assert (Hdec : Base64.b64decode s = inr B).
  { unfold Base64.b64decode. subst s.
    rewrite Base64Facts.all_ascii_b64encode.
    apply (Base64Facts.a2b_b64encode B []). }
  rewrite (save_stores s (image_name 0) _ B
             (storable_after_create s fs _ Hs) Hdec).
  reflexivity.
Qed.

(** X14.  The script on an image of 1 to 75 bytes: the XML file is
    written with the text of the image, but the scanner passes over a text
    of 100 characters or fewer, so nothing is extracted, and the run ends
    on the [TypeError] of the <end_tag/>. *)
Theorem main_skips_a_small_image fs B :
  let s := Base64.b64encode B in
  ("scenery.png" ∉ denied fs) → ("scenery.png" ∉ dirs fs) →
  files fs !! "scenery.png" = Some B →
  B ≠ [] →
  (length B ≤ 75)%nat →
  writable fs "image.xml" →
  ET_fromstring (xml_file ET_tostring (main_document s))
    = Some (main_document s) →
  main ET_tostring ET_fromstring fs =
  (inr (),
   mkFS (<["image.xml" := xml_file ET_tostring (main_document s)]> (files fs))
        (dirs fs) (denied fs),
   [Printed (MsgXmlCreated "image.xml");
    MsgMainCreated;
    Printed (MsgRoot "root");
    Printed (MsgLevel1 "root" {["version" := "1.0"; "encoding" := "UTF-8"]});
    Printed (MsgLevel2 "image_title" {["id" := "1"; "type" := "image"]});
    Printed (MsgLevel2 "image_string" {["id" := "2"; "type" := "binary"]});
    Printed (MsgLevel2 "end_tag" ∅);
    Printed (MsgException TypeError)]).
Proof.
  intros s Hden Hdir Hfile _ Hlen Hw Hinv. unfold main. cbv zeta.
  rewrite (encode_image_to_base64_reads _ _ _ Hden Hdir Hfile).
  rewrite (create_main_document _ _ Hw). cbn [truthy fstring]. fold s.
  rewrite (convert_main_document _ _ (parse_after_create _ _ _ Hw Hinv)).
  cbv zeta.
  assert (Hpayload : Nat.ltb 100 (String.length s) = false).
  { apply Nat.ltb_ge. subst s. rewrite b64encode_length.
    pose proof (Nat.div_mod_eq (length B + 2) 3).
    pose proof (Nat.mod_upper_bound (length B + 2) 3 ltac:(lia)). lia. }
  rewrite Hpayload. reflexivity.
Qed.

(** X15.  The script without its image: the failed read is reported, the
    XML file is written all the same with the text "None" in place of the
    payload, nothing is extracted, and the run ends on the same
    [TypeError]. *)
Theorem main_without_image fs :
  ("scenery.png" ∉ denied fs) → ("scenery.png" ∉ dirs fs) →
  files fs !! "scenery.png" = None →
  writable fs "image.xml" →
  ET_fromstring (xml_file ET_tostring (main_document "None"))
    = Some (main_document "None") →
  main ET_tostring ET_fromstring fs =
  (inr (),
   mkFS (<["image.xml" := xml_file ET_tostring (main_document "None")]> (files fs))
        (dirs fs) (denied fs),
   [Printed (MsgImageNotFound "scenery.png");
    Printed (MsgXmlCreated "image.xml");
    MsgMainCreated;
    Printed (MsgRoot "root");
    Printed (MsgLevel1 "root" {["version" := "1.0"; "encoding" := "UTF-8"]});
    Printed (MsgLevel2 "image_title" {["id" := "1"; "type" := "image"]});
    Printed (MsgLevel2 "image_string" {["id" := "2"; "type" := "binary"]});
    Printed (MsgLevel2 "end_tag" ∅);
    Printed (MsgException TypeError)]).
Proof.
  intros Hden Hdir Hfile Hw Hinv. unfold main. cbv zeta.
  rewrite (encode_image_to_base64_not_found _ _ Hden Hdir Hfile).
  rewrite (create_main_document _ _ Hw). cbn [truthy fstring].
  rewrite (convert_main_document _ _ (parse_after_create _ _ _ Hw Hinv)).
  reflexivity.
Qed.

(** What the scanner does on the document of the script when the element
    of the image has come back without text. *)
Lemma convert_empty_image_document fs :
  ET_parse ET_fromstring "image.xml" fs = (inr empty_image_document, fs, []) →
  convert_xml_images ET_fromstring "image.xml" fs =
  (inr PyNone, fs,
   [MsgRoot "root";
    MsgLevel1 "root" {["version" := "1.0"; "encoding" := "UTF-8"]};
    MsgLevel2 "image_title" {["id" := "1"; "type" := "image"]};
    MsgLevel2 "image_string" {["id" := "2"; "type" := "binary"]};
    MsgException TypeError]).
Proof.
  intros Hparse. unfold convert_xml_images, try_except.
  rewrite bind_run, Hparse. cbv beta iota zeta.
  unfold print at 1. rewrite bind_run. cbv beta iota zeta.
  rewrite bind_run. cbn [empty_image_document children].
  rewrite for_each_cons, scan_level_1_run. cbn [children tag attrib].
  cbv zeta.
  rewrite for_each_cons, scan_level_2_run. cbn [text tag attrib].
  change (Nat.ltb 100 (String.length "scenery.png.")) with false.
  cbv beta iota zeta.
  rewrite for_each_cons, scan_level_2_run. cbn [text tag attrib].
  io_unfold. cbn. reflexivity.
Qed.

(** X18.  The script on an empty image: the XML file is written with an
    empty text, which the parser gives back as no text at all, so the scan
    stops on the element of the image itself, with the [TypeError] of
    [len(None)], before it reaches the <end_tag/>; nothing is extracted. *)
Theorem main_on_an_empty_image fs :
  ("scenery.png" ∉ denied fs) → ("scenery.png" ∉ dirs fs) →
  files fs !! "scenery.png" = Some [] →
  writable fs "image.xml" →
  ET_fromstring (xml_file ET_tostring (main_document ""))
    = Some empty_image_document →
  main ET_tostring ET_fromstring fs =
  (inr (),
   mkFS (<["image.xml" := xml_file ET_tostring (main_document "")]> (files fs))
        (dirs fs) (denied fs),
   [Printed (MsgXmlCreated "image.xml");
    MsgMainCreated;
    Printed (MsgRoot "root");
    Printed (MsgLevel1 "root" {["version" := "1.0"; "encoding" := "UTF-8"]});
    Printed (MsgLevel2 "image_title" {["id" := "1"; "type" := "image"]});
    Printed (MsgLevel2 "image_string" {["id" := "2"; "type" := "binary"]});
    Printed (MsgException TypeError)]).
Proof.
  intros Hden Hdir Hfile Hw Hinv. unfold main. cbv zeta.
  rewrite (encode_image_to_base64_reads _ _ _ Hden Hdir Hfile).
  change (Base64.b64encode []) with "".
  rewrite (create_main_document _ _ Hw). cbn [truthy fstring].
  rewrite (convert_empty_image_document _
             (parse_after_create _ _ _ Hw Hinv)).
  reflexivity.
Qed.

End ScriptFacts.

Lemma main_extracts_the_image_witness :
  files big_image_fs !! "scenery.png" = Some big_image
  ∧ (75 < length big_image)%nat
  ∧ files (main tags_of
             (parses_to (main_document (Base64.b64encode big_image)))
             big_image_fs).1.2
      !! "extracted_images/extracted_image0.jpg" = Some big_image.
Proof.
  split; [reflexivity|]. split; [cbn; lia|].
  rewrite (main_extracts_the_image tags_of
             (parses_to (main_document (Base64.b64encode big_image)))
             big_image_fs big_image).
  - apply lookup_insert_eq.
  - set_solver.
  - set_solver.
  - reflexivity.
  - cbn. lia.
  - split; set_solver.
  - repeat split; set_solver.
  - reflexivity.
Defined.

Lemma main_skips_a_small_image_witness :
  files image_fs !! "scenery.png" = Some ["A"%byte; "B"%byte; "C"%byte]
  ∧ (main tags_of (parses_to (main_document "QUJD")) image_fs).1.2
    = mkFS (<["image.xml" := xml_file tags_of (main_document "QUJD")]>
              (files image_fs))
           ∅ ∅.
Proof.
  split; [reflexivity|].
  rewrite (main_skips_a_small_image tags_of
             (parses_to (main_document "QUJD")) image_fs
             ["A"%byte; "B"%byte; "C"%byte]).
  - reflexivity.
  - set_solver.
  - set_solver.
  - reflexivity.
  - discriminate.
  - cbn. lia.
  - split; set_solver.
  - reflexivity.
Defined.

Lemma main_on_an_empty_image_witness :
  files empty_image_fs !! "scenery.png" = Some []
  ∧ (main tags_of (parses_to empty_image_document) empty_image_fs).1.2
    = mkFS (<["image.xml" := xml_file tags_of (main_document "")]>
              (files empty_image_fs))
           ∅ ∅
  ∧ last (main tags_of (parses_to empty_image_document) empty_image_fs).2
    = Some (Printed (MsgException TypeError)).
Proof.
  split; [reflexivity|].
  rewrite (main_on_an_empty_image tags_of (parses_to empty_image_document)
             empty_image_fs).
  - split; reflexivity.
  - set_solver.
  - set_solver.
  - reflexivity.
  - split; set_solver.
  - reflexivity.
Defined.

Lemma main_without_image_witness :
  files sample_fs !! "scenery.png" = None
  ∧ (main tags_of (parses_to (main_document "None")) sample_fs).1.2
    = mkFS (<["image.xml" := xml_file tags_of (main_document "None")]>
              (files sample_fs))
           ∅ ∅.
Proof.
  split; [reflexivity|].
  rewrite (main_without_image tags_of (parses_to (main_document "None"))
             sample_fs).
  - reflexivity.
  - set_solver.
  - set_solver.
  - reflexivity.
  - split; set_solver.
  - reflexivity.
Defined.

Lemma scan_depends_on_depth2_texts_witness :
  map text (depth2 flat_document) = map text (depth2 deep_document)
  ∧ fs_of (convert_xml_images (parses_two flat_document deep_document)
             "flat.xml" two_files_fs)
    = fs_of (convert_xml_images (parses_two flat_document deep_document)
               "deep.xml" two_files_fs).
Proof.
  split; [reflexivity|].
  apply (scan_depends_on_depth2_texts (parses_two flat_document deep_document)
           "flat.xml" "deep.xml" two_files_fs flat_document deep_document);
    reflexivity.
Defined.

Lemma scan_frame_witness :
  ET_parse (parses_to sample_document) "image.xml" sample_fs
    = (inr sample_document, sample_fs, [])
  ∧ files (fs_of (convert_xml_images (parses_to sample_document)
                    "image.xml" sample_fs)) !! "image.xml" = Some [].
Proof.
  split; [reflexivity|].
  rewrite (scan_frame (parses_to sample_document) "image.xml" sample_fs
             sample_document "image.xml" eq_refl); [reflexivity|].
  intros i _ E. rewrite output_path_image_name in E. discriminate E.
Defined.

Lemma scanned_payload_stored_witness :
  payloads (scanned (depth2 sample_document)) !! 1 = Some good_payload
  ∧ Base64.b64decode good_payload = inr (repeat x00 78)
  ∧ files (fs_of (convert_xml_images (parses_to sample_document)
                    "image.xml" sample_fs))
      !! "extracted_images/extracted_image1.jpg" = Some (repeat x00 78).
Proof.
  split; [reflexivity|]. split; [vm_compute; reflexivity|].
  apply (scanned_payload_stored (parses_to sample_document) "image.xml"
           sample_fs sample_document 1 good_payload (repeat x00 78)).
  - reflexivity.
  - reflexivity.
  - vm_compute. reflexivity.
  - apply sample_storable.
Defined.

Lemma undecodable_payload_writes_nothing_witness :
  payloads (scanned (depth2 sample_document)) !! 0 = Some bad_payload
  ∧ Base64.b64decode bad_payload = inl BinasciiError
  ∧ files (fs_of (convert_xml_images (parses_to sample_document)
                    "image.xml" sample_fs))
      !! "extracted_images/extracted_image0.jpg" = None.
Proof.
  split; [reflexivity|]. split; [vm_compute; reflexivity|].
  transitivity (files sample_fs !! output_path (image_name 0));
    [|reflexivity].
  apply (undecodable_payload_writes_nothing (parses_to sample_document)
           "image.xml" sample_fs sample_document 0 bad_payload BinasciiError).
  - reflexivity.
  - reflexivity.
  - vm_compute. reflexivity.
Defined.

(** ** The payload writer on the file system alone *)

Lemma output_path_never_folder name : output_path name ≠ "extracted_images".
Proof.
  unfold output_path, os_path_join. intros H.
  destruct (String.prefix "/" name) eqn:Hpre.
  - subst name. discriminate Hpre.
  - change (("extracted_images" +:+ "/") +:+ name = "extracted_images") in H.
    rewrite string_app_assoc in H. now apply string_app_not_self in H.
Qed.

Lemma save_fs_ok s name fs :
  folder_ok fs → fs_of (save_base64_to_image s name fs) = put s name (made fs).
Proof.
  intros (Hden & Hfile). rewrite save_run. unfold os_makedirs, put, made.
  rewrite decide_False by assumption. rewrite Hfile. cbn [denied dirs files].
  destruct (Base64.b64decode s) as [[]|data]; try reflexivity.
  unfold write_file. cbn [denied dirs files].
  destruct (decide (_ ∈ denied fs)); [reflexivity|].
  destruct (decide (_ ∈ _)); reflexivity.
Qed.

Lemma save_fs_ko s name fs :
  ¬ folder_ok fs → fs_of (save_base64_to_image s name fs) = fs.
Proof.
  intros Hko. rewrite save_run. unfold os_makedirs.
  destruct (decide (_ ∈ denied fs)); [reflexivity|].
  destruct (files fs !! "extracted_images") eqn:Hfile; [reflexivity|].
  exfalso. apply Hko. now split.
Qed.

Lemma made_made fs : made (made fs) = made fs.
Proof. unfold made. cbn [files dirs denied]. f_equal. set_solver. Qed.

Lemma put_made s name fs : put s name (made fs) = made (put s name (made fs)).
Proof.
  unfold put. destruct (Base64.b64decode s) as [e|data];
    [now rewrite made_made|].
  repeat case_decide; try (now rewrite made_made).
  unfold made. cbn [files dirs denied]. f_equal. set_solver.
Qed.

Lemma folder_ok_put s name fs : folder_ok fs → folder_ok (put s name fs).
Proof.
  intros (Hden & Hfile). unfold put.
  destruct (Base64.b64decode s) as [e|data]; [now split|].
  repeat case_decide; try (now split).
  split; cbn [denied files]; [assumption|].
  rewrite lookup_insert_ne; [assumption | apply output_path_never_folder].
Qed.

Lemma folder_ok_made fs : folder_ok fs → folder_ok (made fs).
Proof. intros H. exact H. Qed.

Lemma put_idem s name fs : put s name (put s name fs) = put s name fs.
Proof.
  unfold put. destruct (Base64.b64decode s) as [e|data]; [reflexivity|].
  destruct (decide (_ ∈ denied fs)) as [Hden|Hden],
    (decide (_ ∈ dirs fs)) as [Hdir|Hdir];
    cbn [denied dirs files]; repeat case_decide; try done.
  now rewrite insert_insert_eq.
Qed.

Lemma put_comm s1 name1 s2 name2 fs :
  output_path name1 ≠ output_path name2 →
  put s1 name1 (put s2 name2 fs) = put s2 name2 (put s1 name1 fs).
Proof.
  intros Hne. unfold put.
  destruct (Base64.b64decode s1) as [e1|d1], (Base64.b64decode s2) as [e2|d2];
    try reflexivity.
  destruct (decide (output_path name1 ∈ denied fs)),
    (decide (output_path name1 ∈ dirs fs)),
    (decide (output_path name2 ∈ denied fs)),
    (decide (output_path name2 ∈ dirs fs));
    cbn [denied dirs files]; repeat case_decide; try done.
  now rewrite insert_insert_ne.
Qed.

Lemma put_puts_comm s (i : nat) ps (j : nat) fs :
  (i < j)%nat →
  put s (image_name i) (puts ps j fs) = puts ps j (put s (image_name i) fs).
Proof.
  revert j fs. induction ps as [|p ps IH]; intros j fs Hij; [reflexivity|].
  cbn [puts]. rewrite IH by lia. f_equal. apply put_comm.
  intros E. apply output_path_inj in E. lia.
Qed.

Lemma puts_idem ps (i : nat) fs : puts ps i (puts ps i fs) = puts ps i fs.
Proof.
  revert i fs. induction ps as [|p ps IH]; intros i fs; [reflexivity|].
  cbn [puts]. rewrite put_puts_comm by lia. now rewrite put_idem, IH.
Qed.

Lemma folder_ok_puts ps (i : nat) fs : folder_ok fs → folder_ok (puts ps i fs).
Proof.
  revert i fs. induction ps as [|p ps IH]; intros i fs H; [assumption|].
  cbn [puts]. now apply IH, folder_ok_put.
Qed.

Lemma puts_made ps (i : nat) fs :
  made (puts ps i (made fs)) = puts ps i (made fs).
Proof.
  revert i fs. induction ps as [|p ps IH]; intros i fs; cbn [puts].
  - apply made_made.
  - rewrite put_made. apply IH.
Qed.

Lemma store_all_ok ps (i : nat) fs :
  folder_ok fs → ps ≠ [] → store_all ps i fs = puts ps i (made fs).
Proof.
  revert i fs. induction ps as [|p ps IH]; intros i fs Hok Hne; [done|].
  cbn [store_all puts]. rewrite (save_fs_ok _ _ _ Hok).
  destruct ps as [|q ps]; [reflexivity|].
  rewrite IH; [|now apply folder_ok_put|discriminate].
  now rewrite <- put_made.
Qed.

Lemma store_all_ko ps (i : nat) fs : ¬ folder_ok fs → store_all ps i fs = fs.
Proof.
  intros Hko. revert i. induction ps as [|p ps IH]; intros i; [reflexivity|].
  cbn [store_all]. rewrite (save_fs_ko _ _ _ Hko). apply IH.
Qed.

Lemma store_all_idem ps fs :
  store_all ps 0 (store_all ps 0 fs) = store_all ps 0 fs.
Proof.
  destruct ps as [|p ps]; [reflexivity|].
  destruct (decide (folder_ok fs)) as [Hok|Hko].
  - rewrite (store_all_ok (p :: ps) 0 fs Hok) by discriminate.
    rewrite store_all_ok;
      [|now apply folder_ok_puts, folder_ok_made|discriminate].
    now rewrite puts_made, puts_idem.
  - now rewrite !(store_all_ko _ _ _ Hko).
Qed.

(** X12.  [save_base64_to_image] creates the output folder before it
    decodes anything.  When the folder cannot be created, the file system
    is left as it is and the generic diagnostic is printed, whether or not
    the text decodes; when it can, the folder is there afterwards even if
    the text does not decode, and then no file at all is written. *)
Theorem save_makes_folder_first s name fs :
  let r := save_base64_to_image s name fs in
  (¬ folder_ok fs → fs_of r = fs ∧ ∃ e, output_of r = [MsgSaveError e])
  ∧ (folder_ok fs →
     ("extracted_images" ∈ dirs (fs_of r))
     ∧ (∀ e, Base64.b64decode s = inl e → fs_of r = made fs)).
Proof.
  cbn zeta. split.
  - intros Hko. split; [now apply save_fs_ko|].
    rewrite save_run. unfold os_makedirs, output_of.
    destruct (decide (_ ∈ denied fs)); [cbn; eauto|].
    destruct (files fs !! "extracted_images") eqn:Hfile; [cbn; eauto|].
    exfalso. apply Hko. now split.
  - intros Hok. rewrite (save_fs_ok _ _ _ Hok). split.
    + rewrite put_made. unfold made at 1. cbn [dirs]. set_solver.
    + intros e Hdec. unfold put. now rewrite Hdec.
Qed.

Lemma save_makes_folder_first_witness :
  folder_ok sample_fs
  ∧ Base64.b64decode bad_payload = inl BinasciiError
  ∧ fs_of (save_base64_to_image bad_payload "a.jpg" sample_fs)
    = mkFS (files sample_fs) ({["extracted_images"]} ∪ ∅) ∅.
Proof.
  assert (Hok : folder_ok sample_fs) by (split; [set_solver | reflexivity]).
  assert (Hdec : Base64.b64decode bad_payload = inl BinasciiError)
    by (vm_compute; reflexivity).
  split; [exact Hok|]. split; [exact Hdec|].
  exact (proj2 (proj2 (save_makes_folder_first bad_payload "a.jpg" sample_fs)
                  Hok) _ Hdec).
Defined.

Section ScanTwice.

Variable ET_fromstring : list byte → option Element.

(** X16.  Scanning the same document a second time changes nothing: if the
    file still parses to the same tree after a first scan, the file system
    after a second scan is the file system after the first. *)
Theorem scan_twice xml_file_path fs root :
  let fs' := fs_of (convert_xml_images ET_fromstring xml_file_path fs) in
  ET_parse ET_fromstring xml_file_path fs = (inr root, fs, []) →
  ET_parse ET_fromstring xml_file_path fs' = (inr root, fs', []) →
  fs_of (convert_xml_images ET_fromstring xml_file_path fs') = fs'.
Proof.
  intros fs' H1 H2.
  destruct (convert_run _ _ _ _ H2) as (_ & -> & _).
  subst fs'. destruct (convert_run _ _ _ _ H1) as (_ & -> & _).
  apply store_all_idem.
Qed.

End ScanTwice.

Lemma scan_twice_witness :
  let once :=
    fs_of (convert_xml_images (parses_to sample_document) "image.xml"
             sample_fs) in
  files once !! "extracted_images/extracted_image1.jpg"
    = Some (repeat x00 78)
  ∧ fs_of (convert_xml_images (parses_to sample_document) "image.xml" once)
    = once.
Proof.
  cbn zeta. split; [vm_compute; reflexivity|].
  apply (scan_twice (parses_to sample_document) "image.xml" sample_fs
           sample_document).
  - reflexivity.
  - vm_compute. reflexivity.
Defined.
